(** * Blacklist plugin: gateway layer of [main.py] over a record store

    A shallow embedding of the handlers of [MyPlugin] (main.py): the
    message hook [on_all_message], the admin commands [ls] and [add], and
    the four agent tools [block_user], [unblock_user], [list_blacklist]
    and [get_blacklist_status].

    Conventions.
    - Python [int] is [Z]; [//] is floor division and raises on a zero
      divisor.
    - A point in time is a whole number of seconds counted from
      0001-01-01T00:00:00 (the smallest [datetime]); an ISO-8601 string
      produced by [isoformat] is represented by that number.
    - A handler is a computation over a [World]: the store, the wall
      clock, the logger, and the effects the handler has on the event it
      was given ([stop_event], [send]).  A Python exception is the outcome
      [Raise]; the world reached when it was raised is kept, as it is by
      [try] / [except].
    - [json.dumps(d)] is represented by the dictionary [d] it serialises. *)

From Stdlib Require Import ZArith List String Bool Lia.
From Stdlib Require Import DecimalString Orders Mergesort Permutation.
Import ListNotations.

Local Open Scope string_scope.
Local Open Scope Z_scope.

(** ** Python values *)

Module Py.

Inductive exn : Type :=
| ZeroDivisionError (msg : string)
| OverflowError (msg : string).

(** [str(e)] *)
Definition str_exn (e : exn) : string :=
  match e with
  | ZeroDivisionError m => m
  | OverflowError m => m
  end.

(** [str(n)] for an [int], as used by f-strings. *)
Definition str_int (n : Z) : string := NilZero.string_of_int (Z.to_int n).

(** Truth value of a [str]: only the empty string is false. *)
Definition truthy (s : string) : bool :=
  match s with
  | EmptyString => false
  | String _ _ => true
  end.

(** Truth value of an optional [str] ([None] is false as well). *)
Definition truthy_opt (o : option string) : bool :=
  match o with
  | Some s => truthy s
  | None => false
  end.

(** Limits of [timedelta] (a day count of magnitude at most
    999999999) and of [datetime] (up to 9999-12-31T23:59:59). *)
Definition timedelta_max_days : Z := 999999999.
Definition datetime_max : Z := 3652059 * 86400 - 1.

Definition timedelta_fits (seconds : Z) : bool :=
  Z.abs (seconds / 86400) <=? timedelta_max_days.

Definition datetime_fits (t : Z) : bool :=
  (0 <=? t) && (t <=? datetime_max).

(** [str(e)] of the [OverflowError] of [timedelta(seconds=s)]: the day
    count does not fit a C [int], or it does and is out of range. *)
Definition timedelta_overflow_text (seconds : Z) : string :=
  if (- 2 ^ 31 <=? seconds / 86400) && (seconds / 86400 <=? 2 ^ 31 - 1)
  then "days=" ++ str_int (seconds / 86400)
         ++ "; must have magnitude <= 999999999"
  else "Python int too large to convert to C int".

End Py.

(** ** JSON payloads *)

#[warnings="-register-all"]
Inductive json : Type :=
| JNull
| JBool (b : bool)
| JInt (n : Z)
| JStr (s : string)
| JIso (t : Z)                       (* the ISO-8601 string of instant [t] *)
| JList (l : list json)
| JDict (kv : list (string * json)).

Definition dict := list (string * json).

(** [d.get(k)]: the first binding of [k]. *)
Fixpoint dict_get (k : string) (d : dict) : option json :=
  match d with
  | [] => None
  | (k', v) :: d' => if String.eqb k k' then Some v else dict_get k d'
  end.

Definition has_key (k : string) (d : dict) : bool :=
  match dict_get k d with
  | Some _ => true
  | None => false
  end.

(** ** Data model *)

(** A row of the blacklist table: [(user_id, ban_time, expire_time, reason)]. *)
Record Entry : Type := mkEntry {
  user_id : string;
  ban_time : Z;
  expire_time : option Z;
  reason : string
}.

(** Options read from the plugin configuration in [__init__]. *)
Record Config : Type := mkConfig {
  max_blacklist_duration : Z;
  allow_permanent_blacklist : bool;
  show_blacklist_status : bool;
  blacklist_message : string;
  auto_delete_expired_after : Z;
  allow_blacklist_admin : bool
}.

(** The defaults given to [config.get]. *)
Definition default_config : Config :=
  {| max_blacklist_duration := 1 * 24 * 60 * 60;
     allow_permanent_blacklist := true;
     show_blacklist_status := true;
     blacklist_message := "[连接已中断]";
     auto_delete_expired_after := 86400;
     allow_blacklist_admin := false |}.

(** What a handler reads from [AstrMessageEvent]. *)
Record Event : Type := mkEvent {
  is_at_or_wake_command : bool;
  sender_id : string;                (* get_sender_id() *)
  self_id : string;                  (* get_self_id() *)
  is_admin : bool;                   (* is_admin() *)
  messages : list string             (* get_messages() *)
}.

Inductive LogRecord : Type :=
| LogInfo (msg : string)
| LogError (msg : string).

Record World : Type := mkWorld {
  rows : list Entry;                 (* the blacklist table *)
  storage_ok : bool;                 (* false: the backing storage is failing *)
  clock : Z;                         (* what datetime.now() returns next *)
  ticks : list Z;                    (* time passing between later readings *)
  log : list LogRecord;
  stopped : bool;                    (* event.stop_event() was called *)
  outbox : list string               (* texts passed to event.send *)
}.

Definition with_rows (r : list Entry) (w : World) : World :=
  mkWorld r (storage_ok w) (clock w) (ticks w) (log w) (stopped w) (outbox w).

Definition with_log (l : list LogRecord) (w : World) : World :=
  mkWorld (rows w) (storage_ok w) (clock w) (ticks w) l (stopped w) (outbox w).

(** ** Handlers as computations *)

Inductive Res (A : Type) : Type :=
| Ok (a : A)
| Raise (e : Py.exn).
Arguments Ok {A} a.
Arguments Raise {A} e.

Definition M (A : Type) : Type := World -> Res A * World.

Definition ret {A} (a : A) : M A := fun w => (Ok a, w).

Definition bind {A B} (m : M A) (k : A -> M B) : M B :=
  fun w =>
    match m w with
    | (Ok a, w') => k a w'
    | (Raise e, w') => (Raise e, w')
    end.

Definition raise {A} (e : Py.exn) : M A := fun w => (Raise e, w).

(** [try: body  except Exception as e: handler] *)
Definition try_except {A} (body : M A) (handler : Py.exn -> M A) : M A :=
  fun w =>
    match body w with
    | (Ok a, w') => (Ok a, w')
    | (Raise e, w') => handler e w'
    end.

Declare Scope py_scope.
Delimit Scope py_scope with py.
Notation "x <- m ;; k" := (bind m (fun x => k))
  (at level 61, m at next level, right associativity) : py_scope.
Notation "m ;; k" := (bind m (fun _ => k))
  (at level 61, right associativity) : py_scope.
Local Open Scope py_scope.

(** Time moves on by the next tick. *)
Definition advance (w : World) : World :=
  mkWorld (rows w) (storage_ok w)
          (clock w + hd 0 (ticks w)) (tl (ticks w))
          (log w) (stopped w) (outbox w).

(** [datetime.now()]: reads the clock, after which time moves on. *)
Definition datetime_now : M Z := fun w => (Ok (clock w), advance w).

(** [timedelta(seconds=s)]: the day count must fit. *)
Definition timedelta_seconds (s : Z) : M Z :=
  if Py.timedelta_fits s
  then ret s
  else raise (Py.OverflowError (Py.timedelta_overflow_text s)).

(** [t + d] on a [datetime] and a [timedelta]. *)
Definition datetime_add (t d : Z) : M Z :=
  if Py.datetime_fits (t + d)
  then ret (t + d)
  else raise (Py.OverflowError "date value out of range").

(** [a // b] *)
Definition floordiv (a b : Z) : M Z :=
  if b =? 0
  then raise (Py.ZeroDivisionError "integer division or modulo by zero")
  else ret (a / b).

Definition logger_info (msg : string) : M unit :=
  fun w => (Ok tt, with_log (log w ++ [LogInfo msg]) w).

Definition logger_error (msg : string) : M unit :=
  fun w => (Ok tt, with_log (log w ++ [LogError msg]) w).

(** [event.stop_event()] *)
Definition stop_event : M unit :=
  fun w =>
    (Ok tt,
     mkWorld (rows w) (storage_ok w) (clock w) (ticks w) (log w) true (outbox w)).

(** [event.send(MessageChain().message(text))]; delivery is the
    framework's business and is taken to succeed. *)
Definition send (text : string) : M unit :=
  fun w =>
    (Ok tt,
     mkWorld (rows w) (storage_ok w) (clock w) (ticks w) (log w) (stopped w)
             (outbox w ++ [text])).

(** ** The record store ([database.py], class [BlacklistDatabase]) *)

(** Rows are listed by ban time. *)
Module BanTimeOrder <: TotalLeBool.
Definition t := Entry.
Definition leb (a b : Entry) : bool := ban_time a <=? ban_time b.
Lemma leb_total : forall a b, leb a b = true \/ leb b a = true.
Proof. intros a b; unfold leb; lia. Qed.
End BanTimeOrder.

Module BanTimeSort := Sort BanTimeOrder.

Module BlacklistDatabase.

(** Modelled from the spec: [database.py] is missing from the sources.
    An entry whose [expire_time] is in the past is logically absent. *)
Definition expired (now : Z) (e : Entry) : bool :=
  match expire_time e with
  | Some t => t <? now
  | None => false
  end.

Definition is_row_of (uid : string) (e : Entry) : bool :=
  String.eqb (user_id e) uid.

Definition find_row (uid : string) (tbl : list Entry) : option Entry :=
  find (is_row_of uid) tbl.

Definition delete_row (uid : string) (tbl : list Entry) : list Entry :=
  filter (fun e => negb (is_row_of uid e)) tbl.

Definition active_rows (now : Z) (tbl : list Entry) : list Entry :=
  filter (fun e => negb (expired now e)) tbl.

(** Modelled from the spec: [database.py] is missing from the sources.
    A storage fault is caught inside the store and logged. *)
Definition storage_fault {A} (op : string) (failure : A) : M A :=
  logger_error ("storage failure in " ++ op) ;; ret failure.

(** Modelled from the spec: [database.py] is missing from the sources.
    [add_user] inserts or replaces the entry of [uid] (delete, then
    insert); it returns [False] on a storage failure. *)
Definition add_user (uid : string) (ban : Z) (expire : option Z)
           (why : string) : M bool :=
  fun w =>
    if storage_ok w
    then (Ok true,
          with_rows (delete_row uid (rows w) ++ [mkEntry uid ban expire why]) w)
    else storage_fault "add_user" false w.

(** Modelled from the spec: [database.py] is missing from the sources.
    [remove_user] is true when a row was removed, false if the user is
    absent or the storage fails. *)
Definition remove_user (uid : string) : M bool :=
  fun w =>
    if storage_ok w
    then match find_row uid (rows w) with
         | Some _ => (Ok true, with_rows (delete_row uid (rows w)) w)
         | None => (Ok false, w)
         end
    else storage_fault "remove_user" false w.

(** Modelled from the spec: [database.py] is missing from the sources.
    [get_user_info] returns the entry of [uid] unless it is absent or
    stale; a stale row is deleted on the way (lazy purge).  The answer
    is computed from the expiry observed before the delete. *)
Definition get_user_info (uid : string) : M (option Entry) :=
  fun w =>
    if storage_ok w
    then (now <- datetime_now ;;
          fun w1 =>
            match find_row uid (rows w1) with
            | Some e =>
                if expired now e
                then (Ok None, with_rows (delete_row uid (rows w1)) w1)
                else (Ok (Some e), w1)
            | None => (Ok None, w1)
            end) w
    else storage_fault "get_user_info" None w.

(** Modelled from the spec: [database.py] is missing from the sources.
    [is_user_blacklisted] has the expiry semantics of [get_user_info]. *)
Definition is_user_blacklisted (uid : string) : M bool :=
  fun w =>
    if storage_ok w
    then (now <- datetime_now ;;
          fun w1 =>
            match find_row uid (rows w1) with
            | Some e =>
                if expired now e
                then (Ok false, with_rows (delete_row uid (rows w1)) w1)
                else (Ok true, w1)
            | None => (Ok false, w1)
            end) w
    else storage_fault "is_user_blacklisted" false w.

(** Modelled from the spec: [database.py] is missing from the sources.
    [get_blacklist_count] counts the active entries (the query filters
    the stale ones). *)
Definition get_blacklist_count : M Z :=
  fun w =>
    if storage_ok w
    then (now <- datetime_now ;;
          fun w1 => (Ok (Z.of_nat (List.length (active_rows now (rows w1)))), w1)) w
    else storage_fault "get_blacklist_count" 0 w.

(** The [page]-th block of [page_size] elements, pages counted from 1. *)
Definition page_slice {A} (page page_size : Z) (l : list A) : list A :=
  firstn (Z.to_nat page_size) (skipn (Z.to_nat ((page - 1) * page_size)) l).

(** Modelled from the spec: [database.py] is missing from the sources.
    [get_blacklist_users] returns one page of the active entries in
    ban-time order; an out-of-range page clamps; a [page_size] that is
    not positive, or a storage failure, gives the empty result. *)
Definition get_blacklist_users (page page_size : Z) : M (list Entry) :=
  fun w =>
    if storage_ok w
    then (now <- datetime_now ;;
          fun w1 =>
            let active := BanTimeSort.sort (active_rows now (rows w1)) in
            if page_size <=? 0 then (Ok [], w1)
            else
              let total := Z.of_nat (List.length active) in
              let last := (total + page_size - 1) / page_size in
              let p := if page <? 1 then 1
                       else if last <? page then Z.max 1 last
                       else page in
              (Ok (page_slice p page_size active), w1)) w
    else storage_fault "get_blacklist_users" [] w.

(** Modelled from the spec: [database.py] is missing from the sources.
    [clear_blacklist] deletes all entries unconditionally; it returns
    [False] on a storage failure. *)
Definition clear_blacklist : M bool :=
  fun w =>
    if storage_ok w
    then (Ok true, with_rows [] w)
    else storage_fault "clear_blacklist" false w.

End BlacklistDatabase.

(** ** The plugin ([main.py], class [MyPlugin]) *)

Module MyPlugin.

Import BlacklistDatabase.

(** The text [_format_datetime] returns; [Formatted t] stands for
    [strftime("%Y-%m-%d %H:%M:%S")] of [t]. *)
Inductive TimeText : Type :=
| Permanent                                     (* "永久" *)
| AlreadyExpired                                (* "已过期" *)
| Formatted (t : Z)
| FormattedRemaining (t days hours minutes : Z). (* "... (剩余: d天 h小时 m分钟)" *)

(** [_format_datetime(iso_datetime_str, show_remaining, check_expire)].
    The stored strings were written by [isoformat], so [fromisoformat]
    does not fail on them. *)
Definition _format_datetime (iso_datetime_str : option Z)
           (show_remaining check_expire : bool) : M TimeText :=
  match iso_datetime_str with
  | None => ret Permanent
  | Some datetime_obj =>
      expired_now <-
        (if check_expire
         then (now <- datetime_now ;; ret (datetime_obj <? now))
         else ret false) ;;
      if expired_now then ret AlreadyExpired
      else if show_remaining
      then (now <- datetime_now ;;
            if datetime_obj <? now then ret AlreadyExpired
            else
              now' <- datetime_now ;;
              let remaining := datetime_obj - now' in
              let days := remaining / 86400 in
              let seconds := remaining mod 86400 in
              let hours := seconds / 3600 in
              let remainder := seconds mod 3600 in
              let minutes := remainder / 60 in
              ret (FormattedRemaining datetime_obj days hours minutes))
      else ret (Formatted datetime_obj)
  end.

(** [on_all_message]: the hook run on every inbound message. *)
Definition on_all_message (cfg : Config) (event : Event) : M unit :=
  if negb (is_at_or_wake_command event) then ret tt
  else
    let sender := sender_id event in
    try_except
      (if is_admin event && negb (allow_blacklist_admin cfg) then ret tt
       else
         blacklisted <- is_user_blacklisted sender ;;
         if blacklisted
         then (stop_event ;;
               match messages event with
               | [] => ret tt
               | _ :: _ =>
                   if show_blacklist_status cfg
                   then send (blacklist_message cfg)
                   else ret tt
               end)
         else ret tt)
      (fun e => logger_error ("检查黑名单时出错：" ++ Py.str_exn e)).

(** One line of the table printed by [ls]. *)
Record TableLine : Type := mkTableLine {
  line_user_id : string;
  line_ban_time : TimeText;
  line_expire_time : TimeText;
  line_reason : string
}.

(** The text block [ls] builds in [result], by its contents: the lines
    of the table, the footer figures and the two navigation hints. *)
Record ListText : Type := mkListText {
  table : list TableLine;
  footer_page : Z;
  footer_total_pages : Z;
  footer_total_count : Z;
  footer_page_size : Z;
  hint_previous : option Z;          (* `/black ls {page - 1} ...` *)
  hint_next : option Z               (* `/black ls {page + 1} ...` *)
}.

(** What a command handler yields. *)
Inductive CommandResult : Type :=
| plain_result (text : string)
| plain_list (text : ListText)
| chain_image (base64 : string).

Definition format_line (user : Entry) : M TableLine :=
  ban_time_str <- _format_datetime (Some (ban_time user)) false false ;;
  expire_time_str <- _format_datetime (expire_time user) false true ;;
  let reason_str := if Py.truthy (reason user) then reason user else "无" in
  ret (mkTableLine (user_id user) ban_time_str expire_time_str reason_str).

Fixpoint format_lines (users : list Entry) : M (list TableLine) :=
  match users with
  | [] => ret []
  | user :: rest =>
      line <- format_line user ;;
      lines <- format_lines rest ;;
      ret (line :: lines)
  end.

(** [page] after the two tests of [ls] and [list_blacklist]. *)
Definition clamp_page (page total_pages : Z) : Z :=
  if page <? 1 then 1
  else if total_pages <? page then total_pages
  else page.

(** [blacklist ls [page] [page_size]].  [text_to_image] is the rendering
    helper of [utils/text_to_image.py]; no image means plain text.  The
    admin commands are reached only by administrators: the framework
    enforces [permission_type(ADMIN)] before the handler runs. *)
Definition ls (text_to_image : ListText -> option string)
           (event : Event) (page page_size : Z) : M (list CommandResult) :=
  try_except
    (total_count <- get_blacklist_count ;;
     if total_count =? 0 then ret [plain_result "黑名单为空。"]
     else
       total_pages <- floordiv (total_count + page_size - 1) page_size ;;
       let page := clamp_page page total_pages in
       users <- get_blacklist_users page page_size ;;
       lines <- format_lines users ;;
       let result :=
         {| table := lines;
            footer_page := page;
            footer_total_pages := total_pages;
            footer_total_count := total_count;
            footer_page_size := page_size;
            hint_previous := if 1 <? page then Some (page - 1) else None;
            hint_next := if page <? total_pages then Some (page + 1) else None |} in
       match text_to_image result with
       | Some image_data =>
           if Py.truthy image_data
           then ret [chain_image image_data]
           else ret [plain_list result]
       | None => ret [plain_list result]
       end)
    (fun e =>
       logger_error ("列出黑名单时出错：" ++ Py.str_exn e) ;;
       ret [plain_result "列出黑名单时出错。"]).

(** [blacklist add <user_id> [duration] [reason]] *)
Definition add (event : Event) (uid : string) (duration : Z)
           (why : string) : M (list CommandResult) :=
  try_except
    (ban <- datetime_now ;;
     expire <-
       (if 0 <? duration
        then (now <- datetime_now ;;
              delta <- timedelta_seconds duration ;;
              t <- datetime_add now delta ;;
              ret (Some t))
        else ret None) ;;
     added <- add_user uid ban expire why ;;
     if added
     then (if 0 <? duration
           then ret [plain_result
                       ("用户 " ++ uid ++ " 已被加入黑名单，时长 "
                          ++ Py.str_int duration ++ " 秒。")]
           else ret [plain_result ("用户 " ++ uid ++ " 已被永久加入黑名单。")])
     else ret [plain_result "添加用户到黑名单时出错。"])
    (fun e =>
       logger_error ("添加用户 " ++ uid ++ " 到黑名单时出错：" ++ Py.str_exn e) ;;
       ret [plain_result "添加用户到黑名单时出错。"]).

(** [user_id if user_id else event.get_sender_id()] *)
Definition default_to_sender (event : Event) (uid : option string) : string :=
  match uid with
  | Some u => if Py.truthy u then u else sender_id event
  | None => sender_id event
  end.

(** The dictionaries the two mutating tools hand to [json.dumps]. *)

Definition permission_denied (sender target_id : string) : dict :=
  [("success", JBool false);
   ("message",
    JStr ("权限不足。您(" ++ sender ++ ")没有权限拉黑其他用户("
            ++ target_id ++ ")。"))].

Definition admin_protected : dict :=
  [("success", JBool false);
   ("message", JStr "不能拉黑管理员。")].

Definition already_blacklisted (target_id : string) : dict :=
  [("success", JBool true);
   ("message", JStr ("用户 " ++ target_id ++ " 已在黑名单中，无需重复添加。"));
   ("user_id", JStr target_id)].

(** [actual_duration if actual_duration > 0 else "永久"] *)
Definition duration_or_permanent (actual_duration : Z) : json :=
  if 0 <? actual_duration then JInt actual_duration else JStr "永久".

Definition blocked (target_id : string) (actual_duration : Z)
           (why : string) : dict :=
  [("success", JBool true);
   ("message", JStr ("用户 " ++ target_id ++ " 已拉黑。"));
   ("user_id", JStr target_id);
   ("duration", duration_or_permanent actual_duration);
   ("reason", JStr why)].

Definition operation_failed (e : Py.exn) : dict :=
  [("success", JBool false);
   ("message", JStr ("操作失败：" ++ Py.str_exn e))].

Definition unblock_denied : dict :=
  [("success", JBool false);
   ("message", JStr "权限不足。只有管理员可以解除拉黑。")].

Definition not_in_blacklist (uid : string) : dict :=
  [("success", JBool true);
   ("message", JStr ("用户 " ++ uid ++ " 不在黑名单中。"));
   ("user_id", JStr uid)].

Definition unblocked (uid : string) : dict :=
  [("success", JBool true);
   ("message", JStr ("用户 " ++ uid ++ " 已解除拉黑。"));
   ("user_id", JStr uid)].

Definition unblock_failed : dict :=
  [("success", JBool false);
   ("message", JStr "解除拉黑用户时失败。")].

(** The line [block_user] logs once the user is added. *)
Definition blocked_log (target_id sender : string) (actual_duration : Z)
           (why : string) : string :=
  "用户 " ++ target_id ++ " 已由 " ++ sender ++ " 通过 LLM 工具拉黑。时长: "
    ++ (if 0 <? actual_duration then Py.str_int actual_duration else "永久")
    ++ ", 原因: " ++ why.

(** The agent tool [block_user]. *)
Definition block_user (cfg : Config) (event : Event)
           (uid : option string) (duration : Z) (why : string) : M dict :=
  let target_id := default_to_sender event uid in
  try_except
    (let sender := sender_id event in
     let self := self_id event in
     let admin := is_admin event in
     let is_self_defense := String.eqb target_id sender in
     if negb admin && negb is_self_defense && negb (String.eqb sender self)
     then ret (permission_denied sender target_id)
     else if String.eqb target_id sender && admin
               && negb (allow_blacklist_admin cfg)
     then ret admin_protected
     else
       blacklisted <- is_user_blacklisted target_id ;;
       if blacklisted
       then ret (already_blacklisted target_id)
       else
         ban <- datetime_now ;;
         let actual_duration := duration in
         let actual_duration :=
           if (duration =? 0) && negb (allow_permanent_blacklist cfg)
           then max_blacklist_duration cfg
           else actual_duration in
         let actual_duration :=
           if max_blacklist_duration cfg <? actual_duration
           then max_blacklist_duration cfg
           else actual_duration in
         expire <-
           (if 0 <? actual_duration
            then (now <- datetime_now ;;
                  delta <- timedelta_seconds actual_duration ;;
                  t <- datetime_add now delta ;;
                  ret (Some t))
            else ret None) ;;
         add_user target_id ban expire why ;;
         logger_info (blocked_log target_id sender actual_duration why) ;;
         ret (blocked target_id actual_duration why))
    (fun e =>
       logger_error ("添加用户 " ++ target_id ++ " 到黑名单时出错："
                       ++ Py.str_exn e) ;;
       ret (operation_failed e)).

(** The agent tool [unblock_user]. *)
Definition unblock_user (event : Event) (uid : string) : M dict :=
  try_except
    (let sender := sender_id event in
     let self := self_id event in
     let admin := is_admin event in
     if negb admin && negb (String.eqb sender self)
     then ret unblock_denied
     else
       user <- get_user_info uid ;;
       match user with
       | None => ret (not_in_blacklist uid)
       | Some _ =>
           removed <- remove_user uid ;;
           if removed
           then (logger_info ("用户 " ++ uid ++ " 已由 " ++ sender
                                ++ " 通过 LLM 工具解除拉黑。") ;;
                 ret (unblocked uid))
           else ret unblock_failed
       end)
    (fun e =>
       logger_error ("从黑名单移除用户 " ++ uid ++ " 时出错：" ++ Py.str_exn e) ;;
       ret (operation_failed e)).

(** [expire_time if expire_time else "永久"] *)
Definition expire_json (expire : option Z) : json :=
  match expire with
  | Some t => JIso t
  | None => JStr "永久"
  end.

(** [reason if reason else "无"] *)
Definition reason_json (why : string) : json :=
  JStr (if Py.truthy why then why else "无").

(** One element of ["users"] in the payload of [list_blacklist]. *)
Definition user_json (user : Entry) : json :=
  JDict [("user_id", JStr (user_id user));
         ("ban_time", JIso (ban_time user));
         ("expire_time", expire_json (expire_time user));
         ("reason", reason_json (reason user))].

(** The agent tool [list_blacklist]. *)
Definition list_blacklist (event : Event) (page page_size : Z) : M dict :=
  try_except
    (total_count <- get_blacklist_count ;;
     if total_count =? 0
     then ret [("total_count", JInt 0); ("users", JList [])]
     else
       total_pages <- floordiv (total_count + page_size - 1) page_size ;;
       let page := clamp_page page total_pages in
       users_data <- get_blacklist_users page page_size ;;
       let users := map user_json users_data in
       ret [("total_count", JInt total_count);
            ("total_pages", JInt total_pages);
            ("current_page", JInt page);
            ("page_size", JInt page_size);
            ("users", JList users)])
    (fun e =>
       logger_error ("列出黑名单时出错：" ++ Py.str_exn e) ;;
       ret [("error", JStr ("查询失败：" ++ Py.str_exn e))]).

(** The agent tool [get_blacklist_status]. *)
Definition get_blacklist_status (event : Event) (uid : option string) : M dict :=
  let target_id := default_to_sender event uid in
  try_except
    (user_info <- get_user_info target_id ;;
     match user_info with
     | Some user =>
         ret [("is_blacklisted", JBool true);
              ("user_id", JStr (user_id user));
              ("ban_time", JIso (ban_time user));
              ("expire_time", expire_json (expire_time user));
              ("reason", reason_json (reason user))]
     | None =>
         ret [("is_blacklisted", JBool false);
              ("user_id", JStr target_id)]
     end)
    (fun e =>
       logger_error ("查询用户 " ++ target_id ++ " 黑名单状态时出错："
                       ++ Py.str_exn e) ;;
       ret [("error", JStr ("查询失败：" ++ Py.str_exn e))]).

(** [blacklist rm <user_id>] *)
Definition rm (event : Event) (uid : string) : M (list CommandResult) :=
  try_except
    (user <- get_user_info uid ;;
     match user with
     | None => ret [plain_result ("用户 " ++ uid ++ " 不在黑名单中。")]
     | Some _ =>
         removed <- remove_user uid ;;
         if removed
         then ret [plain_result ("用户 " ++ uid ++ " 已解除拉黑。")]
         else ret [plain_result "解除拉黑用户时出错。"]
     end)
    (fun e =>
       logger_error ("解除拉黑用户 " ++ uid ++ " 时出错：" ++ Py.str_exn e) ;;
       ret [plain_result "解除拉黑用户时出错。"]).

(** [blacklist clear] *)
Definition clear (event : Event) : M (list CommandResult) :=
  try_except
    (count <- get_blacklist_count ;;
     if count =? 0 then ret [plain_result "黑名单已经为空。"]
     else
       cleared <- clear_blacklist ;;
       if cleared
       then ret [plain_result
                   ("黑名单已清空，共移除 " ++ Py.str_int count ++ " 个用户。")]
       else ret [plain_result "清空黑名单时出错。"])
    (fun e =>
       logger_error ("清空黑名单时出错：" ++ Py.str_exn e) ;;
       ret [plain_result "清空黑名单时出错。"]).

(** The text block [info] builds in [result], by its contents. *)
Record InfoText : Type := mkInfoText {
  info_user_id : string;
  info_ban_time : TimeText;
  info_expire_time : TimeText;
  info_reason : string
}.

(** What [info] yields: a plain message, the text block, or its image. *)
Inductive InfoResult : Type :=
| info_message (text : string)
| info_text (text : InfoText)
| info_image (base64 : string).

(** [blacklist info <user_id>] *)
Definition info (text_to_image : InfoText -> option string)
           (event : Event) (uid : string) : M (list InfoResult) :=
  try_except
    (user <- get_user_info uid ;;
     match user with
     | None => ret [info_message ("用户 " ++ uid ++ " 不在黑名单中。")]
     | Some user =>
         ban_time_str <- _format_datetime (Some (ban_time user)) false false ;;
         expire_time_str <- _format_datetime (expire_time user) true true ;;
         let reason_str := if Py.truthy (reason user) then reason user else "无" in
         let result :=
           mkInfoText (user_id user) ban_time_str expire_time_str reason_str in
         match text_to_image result with
         | Some image_data =>
             if Py.truthy image_data
             then ret [info_image image_data]
             else ret [info_text result]
         | None => ret [info_text result]
         end
     end)
    (fun e =>
       logger_error ("查看用户 " ++ uid ++ " 黑名单信息时出错：" ++ Py.str_exn e) ;;
       ret [info_message "查看用户黑名单信息时出错。"]).

End MyPlugin.

(** * Sample data *)

Module Sample.

(** A healthy store holding one permanent entry, for user 10001. *)
Definition one_banned : World :=
  mkWorld [mkEntry "10001" 50 None "spam"] true 100 [1; 1; 1] [] false [].

(** A healthy store holding one entry that expires at 5000. *)
Definition one_timed : World :=
  mkWorld [mkEntry "10001" 50 (Some 5000) "spam"] true 100 [1; 1; 1] [] false [].

(** A healthy, empty store. *)
Definition empty_store : World :=
  mkWorld [] true 100 [1; 1; 1] [] false [].

(** An empty store whose backing storage is failing. *)
Definition failing_store : World :=
  mkWorld [] false 100 [1; 1; 1] [] false [].

(** Messages sent to the bot "bot": by user 10001, by user 10001 as an
    administrator, by user 10001 without content, by user 20002, and
    by the administrator 90009. *)
Definition from_user : Event := mkEvent true "10001" "bot" false ["hello"].
Definition from_banned_admin : Event := mkEvent true "10001" "bot" true ["hello"].
Definition without_content : Event := mkEvent true "10001" "bot" false [].
Definition from_other : Event := mkEvent true "20002" "bot" false ["hello"].
Definition from_admin : Event := mkEvent true "90009" "bot" true ["hello"].

(** Twenty-five permanent entries, banned at 1, 2, ..., 25. *)
Fixpoint entries (n : nat) : list Entry :=
  match n with
  | O => []
  | S k => (mkEntry (Py.str_int (Z.of_nat n)) (Z.of_nat n) None "" :: entries k)%list
  end.

Definition twenty_five : World :=
  mkWorld (entries 25) true 100 [1; 1; 1] [] false [].


(** A rendering helper that produces no image. *)
Definition no_image (_ : MyPlugin.ListText) : option string := None.

(** Messages from the bot's own account, and from user 10001 when the
    message merely passes by (no mention, no wake word). *)
Definition from_bot : Event := mkEvent true "bot" "bot" false ["hello"].
Definition passing_by : Event := mkEvent false "10001" "bot" false ["hello"].


(** A configuration whose maximum is beyond what [timedelta] holds. *)
Definition huge_max : Config :=
  mkConfig (10 ^ 18) true true "[连接已中断]" 86400 false.

End Sample.

(** * Vocabulary of the properties *)

Import BlacklistDatabase MyPlugin.

(** The reply [on_all_message] owes a blacklisted sender. *)
Definition notice (cfg : Config) (event : Event) : list string :=
  match messages event with
  | [] => []
  | _ :: _ => if show_blacklist_status cfg then [blacklist_message cfg] else []
  end.

(** The rule for the agent's add, in the words of the policy: the target
    is the caller, or the caller is an administrator, or the caller is
    the bot itself. *)
Definition add_permitted (event : Event) (target_id : string) : bool :=
  String.eqb target_id (sender_id event)
  || is_admin event
  || String.eqb (sender_id event) (self_id event).

(** An administrator naming themselves while [allow_blacklist_admin] is
    off. *)
Definition admin_shielded (cfg : Config) (event : Event)
           (target_id : string) : bool :=
  String.eqb target_id (sender_id event) && is_admin event
  && negb (allow_blacklist_admin cfg).

(** The duration rule in the words of the policy: zero becomes the
    maximum when permanent entries are disabled, a request above the
    maximum becomes the maximum, anything else stands. *)
Definition capped_duration (cfg : Config) (duration : Z) : Z :=
  if (duration =? 0) && negb (allow_permanent_blacklist cfg)
  then max_blacklist_duration cfg
  else if max_blacklist_duration cfg <? duration
       then max_blacklist_duration cfg
       else duration.

(** The expiry [block_user] and [add] compute for a duration [d] when
    the clock reads [now], and the world in which the row is then
    written. *)
Definition expiry (now d : Z) : option Z :=
  if 0 <? d then Some (now + d) else None.

Definition at_write (d : Z) (w : World) : World :=
  if 0 <? d then advance (advance w) else advance w.

(** The date arithmetic for [d] stays within [timedelta] and [datetime]
    (there is none when [d] is not positive). *)
Definition expiry_fits (now d : Z) : bool :=
  negb (0 <? d) || (Py.timedelta_fits d && Py.datetime_fits (now + d)).

(** The world [block_user] ends in: the row written, then the log line. *)
Definition block_user_done (event : Event) (target_id : string)
           (d : Z) (why : string) (w1 : World) : World :=
  snd (logger_info (blocked_log target_id (sender_id event) d why)
         (snd (add_user target_id (clock w1)
                 (expiry (clock (advance w1)) d) why (at_write d w1)))).


(** The answers [block_user] can give once the permission tests are
    passed: the target was already there, the target was added, or the
    date arithmetic overflowed. *)
Definition past_permission_tests (cfg : Config) (event : Event)
           (uid : option string) (duration : Z) (why : string)
           (d : dict) : Prop :=
  d = already_blacklisted (default_to_sender event uid)
  \/ d = blocked (default_to_sender event uid) (capped_duration cfg duration) why
  \/ exists msg, d = operation_failed (Py.OverflowError msg).

(** [total_pages] as [ls] and [list_blacklist] compute it. *)
Definition last_page (total_count page_size : Z) : Z :=
  (total_count + page_size - 1) / page_size.

(** The page number in the footer of the text [ls] yields, and the
    users on its lines. *)
Definition text_page_and_users (r : Res (list CommandResult) * World)
  : option (Z * list string) :=
  match fst r with
  | Ok [plain_list text] =>
      Some (footer_page text, map line_user_id (table text))
  | _ => None
  end.

(** The page number and the number of users in a payload of
    [list_blacklist]. *)
Definition page_and_size (r : Res dict * World) : option (json * nat) :=
  match fst r with
  | Ok d =>
      match dict_get "current_page" d, dict_get "users" d with
      | Some p, Some (JList users) => Some (p, List.length users)
      | _, _ => None
      end
  | Raise _ => None
  end.

(** [on_all_message] reaches [stop_event]: the message is addressed to
    the bot, the sender is not a shielded administrator, and the store
    answers that the sender is blacklisted. *)
Definition suppresses (cfg : Config) (event : Event) (w : World) : bool :=
  is_at_or_wake_command event
  && negb (is_admin event && negb (allow_blacklist_admin cfg))
  && match fst (is_user_blacklisted (sender_id event) w) with
     | Ok b => b
     | Raise _ => false
     end.

(** The text block [ls] builds from the formatted lines and the page
    figures, and what it yields for it. *)
Definition list_text (lines : list TableLine)
           (page total_pages total_count page_size : Z) : ListText :=
  {| table := lines;
     footer_page := page;
     footer_total_pages := total_pages;
     footer_total_count := total_count;
     footer_page_size := page_size;
     hint_previous := if 1 <? page then Some (page - 1) else None;
     hint_next := if page <? total_pages then Some (page + 1) else None |}.

Definition rendered (text_to_image : ListText -> option string)
           (text : ListText) : CommandResult :=
  match text_to_image text with
  | Some image_data =>
      if Py.truthy image_data then chain_image image_data else plain_list text
  | None => plain_list text
  end.

(** The payload of [list_blacklist] and the result of [ls] tell the
    same: both failed, both found the blacklist empty, or both show the
    same page of the same users with the same figures. *)
Definition same_listing (text_to_image : ListText -> option string)
           (d : dict) (r : list CommandResult) : Prop :=
  (exists msg, d = [("error", JStr msg)] /\
               r = [plain_result "列出黑名单时出错。"])
  \/ (d = [("total_count", JInt 0); ("users", JList [])] /\
      r = [plain_result "黑名单为空。"])
  \/ (exists n P p ps users lines,
         d = [("total_count", JInt n);
              ("total_pages", JInt P);
              ("current_page", JInt p);
              ("page_size", JInt ps);
              ("users", JList (map user_json users))] /\
         r = [rendered text_to_image (list_text lines p P n ps)] /\
         map line_user_id lines = map user_id users /\
         map line_reason lines
         = map (fun u => if Py.truthy (reason u) then reason u else "无") users).

(** The clock reading [_format_datetime] subtracts from the expiry when
    it shows the remaining time: the third reading when [check_expire]
    is set, the second otherwise. *)
Definition last_reading (check_expire : bool) (w : World) : Z :=
  clock (if check_expire then advance (advance w) else advance w).

(** * Properties *)

(** ** What the store answers and what it leaves alone *)

Ltac run_store :=
  unfold is_user_blacklisted, get_user_info, get_blacklist_count,
    get_blacklist_users, add_user, remove_user, storage_fault,
    logger_error, logger_info, bind, ret, datetime_now;
  simpl.

(** A positive answer of [is_user_blacklisted] comes from a healthy
    store holding a row that is not stale; only the clock has moved. *)
Lemma is_user_blacklisted_true uid w w1 :
  is_user_blacklisted uid w = (Ok true, w1) ->
  w1 = advance w /\ storage_ok w = true /\
  exists e, find_row uid (rows w) = Some e /\ expired (clock w) e = false.
Proof.
  run_store.
  destruct (storage_ok w); [|discriminate].
  destruct (find_row uid (rows w)) as [e|] eqn:Hrow; [|discriminate].
  destruct (expired (clock w) e) eqn:Hexp; [discriminate|].
  intros H; inversion H; subst; eauto.
Qed.

Lemma is_user_blacklisted_active uid w e :
  storage_ok w = true ->
  find_row uid (rows w) = Some e ->
  expired (clock w) e = false ->
  is_user_blacklisted uid w = (Ok true, advance w).
Proof.
  intros Hok Hrow Hexp. run_store. now rewrite Hok, Hrow, Hexp.
Qed.

(** A user without a row, or with a stale one, has no current entry:
    [get_user_info] answers [None], whatever the health of the storage. *)
Lemma get_user_info_absent uid w :
  (forall e, find_row uid (rows w) = Some e -> expired (clock w) e = true) ->
  exists w1, get_user_info uid w = (Ok None, w1).
Proof.
  intros Habsent. run_store.
  destruct (storage_ok w); [|eauto].
  destruct (find_row uid (rows w)) as [e|]; [|eauto].
  rewrite (Habsent e eq_refl). eauto.
Qed.

(** The store never raises: every operation answers. *)
Lemma is_user_blacklisted_answers uid w :
  exists b w1, is_user_blacklisted uid w = (Ok b, w1).
Proof.
  run_store.
  destruct (storage_ok w); [|eauto].
  destruct (find_row uid (rows w)) as [e|]; [|eauto].
  destruct (expired (clock w) e); eauto.
Qed.

Lemma get_user_info_answers uid w :
  exists o w1, get_user_info uid w = (Ok o, w1).
Proof.
  run_store.
  destruct (storage_ok w); [|eauto].
  destruct (find_row uid (rows w)) as [e|]; [|eauto].
  destruct (expired (clock w) e); eauto.
Qed.

Lemma get_blacklist_count_answers w :
  exists n w1, get_blacklist_count w = (Ok n, w1).
Proof. run_store. destruct (storage_ok w); eauto. Qed.

Lemma get_blacklist_users_answers page page_size w :
  exists us w1, get_blacklist_users page page_size w = (Ok us, w1).
Proof.
  run_store.
  destruct (storage_ok w); [|eauto].
  destruct (page_size <=? 0); eauto.
Qed.

Lemma add_user_answers uid ban expire why w :
  exists b w1, add_user uid ban expire why w = (Ok b, w1).
Proof. run_store. destruct (storage_ok w); eauto. Qed.

Lemma remove_user_answers uid w :
  exists b w1, remove_user uid w = (Ok b, w1).
Proof.
  run_store.
  destruct (storage_ok w); [|eauto].
  destruct (find_row uid (rows w)); eauto.
Qed.

(** A failing storage makes [add_user] answer [False] and keep the table. *)
Lemma add_user_fault uid ban expire why w :
  storage_ok w = false ->
  exists w1, add_user uid ban expire why w = (Ok false, w1) /\ rows w1 = rows w.
Proof. intros Hko. run_store. rewrite Hko. eauto. Qed.

(** After [add_user] on a healthy store the table holds exactly the row
    that was passed in. *)
Lemma find_row_delete_row uid tbl : find_row uid (delete_row uid tbl) = None.
Proof.
  unfold find_row, delete_row.
  induction tbl as [|e tbl IH]; simpl; [reflexivity|].
  destruct (is_row_of uid e) eqn:He; simpl; [assumption|].
  now rewrite He.
Qed.

Lemma find_row_app uid tbl tbl' :
  find_row uid (tbl ++ tbl') =
  match find_row uid tbl with
  | Some e => Some e
  | None => find_row uid tbl'
  end.
Proof.
  unfold find_row.
  induction tbl as [|e tbl IH]; simpl; [reflexivity|].
  now destruct (is_row_of uid e).
Qed.

Lemma add_user_stores uid ban expire why w :
  storage_ok w = true ->
  exists w1,
    add_user uid ban expire why w = (Ok true, w1) /\
    find_row uid (rows w1) = Some (mkEntry uid ban expire why).
Proof.
  intros Hok. run_store. rewrite Hok. eexists; split; [reflexivity|].
  simpl. rewrite find_row_app, find_row_delete_row.
  unfold find_row, is_row_of; simpl. now rewrite String.eqb_refl.
Qed.

(** ** The message hook *)

(** C1 (as amended).  An addressed message whose sender the store reports
    as blacklisted, the sender not being an administrator shielded by
    [allow_blacklist_admin = False], stops the event; the table is left as
    it is; a message with content gets exactly one reply, the configured
    text, when [show_blacklist_status] is on, and no reply when it is off;
    a message without content gets no reply. *)
Theorem on_all_message_suppresses cfg event w w1 :
  is_at_or_wake_command event = true ->
  (is_admin event && negb (allow_blacklist_admin cfg)) = false ->
  is_user_blacklisted (sender_id event) w = (Ok true, w1) ->
  exists w',
    on_all_message cfg event w = (Ok tt, w') /\
    stopped w' = true /\
    rows w' = rows w /\
    outbox w' = (outbox w ++ notice cfg event)%list.
Proof.
  intros Haddr Hshield Hbl.
  destruct (is_user_blacklisted_true _ _ _ Hbl) as (-> & _ & _).
  unfold on_all_message, try_except, bind, notice.
  rewrite Haddr, Hshield; simpl. rewrite Hbl.
  destruct (messages event) as [|m ms]; simpl.
  - eexists; repeat split; simpl; now rewrite ?app_nil_r.
  - destruct (show_blacklist_status cfg); simpl;
      eexists; repeat split; simpl; now rewrite ?app_nil_r.
Qed.

Lemma on_all_message_suppresses_witness :
  (is_at_or_wake_command Sample.from_user = true /\
   (is_admin Sample.from_user && negb (allow_blacklist_admin default_config))
     = false /\
   is_user_blacklisted "10001" Sample.one_banned
     = (Ok true, advance Sample.one_banned)) /\
  exists w',
    on_all_message default_config Sample.from_user Sample.one_banned
      = (Ok tt, w') /\
    stopped w' = true /\
    rows w' = rows Sample.one_banned /\
    outbox w' = ["[连接已中断]"].
Proof.
  split; [split; [reflexivity|split; reflexivity]|].
  apply (on_all_message_suppresses default_config Sample.from_user
           Sample.one_banned (advance Sample.one_banned));
    reflexivity.
Defined.

(** C1 as first stated fails twice: an administrator on the blacklist is
    let through while [allow_blacklist_admin] is off (the default), and a
    message without content is stopped but gets no reply although
    [show_blacklist_status] is on. *)
Lemma on_all_message_shielded_admin_or_empty_message :
  show_blacklist_status default_config = true /\
  is_user_blacklisted "10001" Sample.one_banned
    = (Ok true, advance Sample.one_banned) /\
  (on_all_message default_config Sample.from_banned_admin Sample.one_banned
     = (Ok tt, Sample.one_banned) /\
   stopped Sample.one_banned = false) /\
  (exists w',
      on_all_message default_config Sample.without_content Sample.one_banned
        = (Ok tt, w') /\
      stopped w' = true /\ outbox w' = []).
Proof.
  split; [reflexivity|]. split; [reflexivity|]. split.
  - split; reflexivity.
  - vm_compute. eexists. split; [reflexivity|]. split; reflexivity.
Qed.

(** ** Who may add, who may remove *)

Lemma first_test_is_add_permitted event target_id :
  negb (is_admin event) && negb (String.eqb target_id (sender_id event))
    && negb (String.eqb (sender_id event) (self_id event))
  = negb (add_permitted event target_id).
Proof.
  unfold add_permitted.
  destruct (is_admin event), (String.eqb target_id (sender_id event)),
    (String.eqb (sender_id event) (self_id event)); reflexivity.
Qed.

(** C3.  [block_user] called by someone who is not an administrator, on
    a target other than the caller, the caller not being the bot:
    the answer is the permission-denied payload, [success] false, and
    the world (so the table) is exactly as before. *)
Theorem block_user_denies_third_party cfg event uid duration why w :
  is_admin event = false ->
  default_to_sender event uid <> sender_id event ->
  sender_id event <> self_id event ->
  block_user cfg event uid duration why w
    = (Ok (permission_denied (sender_id event) (default_to_sender event uid)), w)
  /\ dict_get "success"
       (permission_denied (sender_id event) (default_to_sender event uid))
     = Some (JBool false).
Proof.
  intros Hadmin Hother Hbot.
  apply String.eqb_neq in Hother. apply String.eqb_neq in Hbot.
  split; [|reflexivity].
  unfold block_user, try_except.
  now rewrite Hadmin, Hother, Hbot.
Qed.

Lemma block_user_denies_third_party_witness :
  (is_admin Sample.from_other = false /\
   default_to_sender Sample.from_other (Some "10001")
     <> sender_id Sample.from_other /\
   sender_id Sample.from_other <> self_id Sample.from_other) /\
  block_user default_config Sample.from_other (Some "10001") 3600 "rude"
    Sample.empty_store
  = (Ok [("success", JBool false);
         ("message",
          JStr "权限不足。您(20002)没有权限拉黑其他用户(10001)。")],
     Sample.empty_store).
Proof.
  assert (H1 : default_to_sender Sample.from_other (Some "10001")
               <> sender_id Sample.from_other) by (simpl; discriminate).
  assert (H2 : sender_id Sample.from_other <> self_id Sample.from_other)
    by (simpl; discriminate).
  split; [split; [reflexivity|split; assumption]|].
  exact (proj1 (block_user_denies_third_party default_config Sample.from_other
                  (Some "10001") 3600 "rude" Sample.empty_store
                  eq_refl H1 H2)).
Defined.

(** C8.  [unblock_user] called by an administrator or by the bot itself,
    for a user the store has no current entry of: the answer is the
    payload "not in the blacklist", with [success] true. *)
Theorem unblock_user_absent_is_success event uid w w1 :
  is_admin event = true \/ sender_id event = self_id event ->
  get_user_info uid w = (Ok None, w1) ->
  unblock_user event uid w = (Ok (not_in_blacklist uid), w1)
  /\ dict_get "success" (not_in_blacklist uid) = Some (JBool true)
  /\ dict_get "message" (not_in_blacklist uid)
     = Some (JStr ("用户 " ++ uid ++ " 不在黑名单中。")).
Proof.
  intros Hauth Hinfo.
  split; [|split; reflexivity].
  unfold unblock_user, try_except, bind.
  assert (Hgo : negb (is_admin event)
                && negb (String.eqb (sender_id event) (self_id event)) = false).
  { destruct Hauth as [-> | ->]; [reflexivity|].
    rewrite String.eqb_refl. now destruct (is_admin event). }
  now rewrite Hgo, Hinfo.
Qed.

Lemma unblock_user_absent_is_success_witness :
  (is_admin Sample.from_admin = true /\
   get_user_info "10001" Sample.empty_store
     = (Ok None, advance Sample.empty_store)) /\
  unblock_user Sample.from_admin "10001" Sample.empty_store
    = (Ok [("success", JBool true);
           ("message", JStr "用户 10001 不在黑名单中。");
           ("user_id", JStr "10001")],
       advance Sample.empty_store).
Proof.
  split; [split; reflexivity|].
  exact (proj1 (unblock_user_absent_is_success Sample.from_admin "10001"
                  Sample.empty_store (advance Sample.empty_store)
                  (or_introl eq_refl) eq_refl)).
Defined.

(** ** Adding through the agent tool *)

(** The two assignments to [actual_duration] in [block_user] compute it. *)
Lemma actual_duration_is_capped cfg duration :
  (if max_blacklist_duration cfg
        <? (if (duration =? 0) && negb (allow_permanent_blacklist cfg)
            then max_blacklist_duration cfg
            else duration)
   then max_blacklist_duration cfg
   else if (duration =? 0) && negb (allow_permanent_blacklist cfg)
        then max_blacklist_duration cfg
        else duration)
  = capped_duration cfg duration.
Proof.
  unfold capped_duration.
  destruct ((duration =? 0) && negb (allow_permanent_blacklist cfg)).
  - now rewrite Z.ltb_irrefl.
  - reflexivity.
Qed.

Lemma block_user_done_rows event target_id d why w1 :
  rows (block_user_done event target_id d why w1)
  = rows (snd (add_user target_id (clock w1)
                 (expiry (clock (advance w1)) d) why (at_write d w1))).
Proof. reflexivity. Qed.

Lemma at_write_frame d w :
  rows (at_write d w) = rows w /\ storage_ok (at_write d w) = storage_ok w.
Proof. unfold at_write. now destruct (0 <? d). Qed.

(** Past the permission tests and the duplicate test, [block_user]
    writes the row with the capped duration and reports that duration. *)
Lemma block_user_proceeds cfg event uid duration why w w1 :
  add_permitted event (default_to_sender event uid) = true ->
  admin_shielded cfg event (default_to_sender event uid) = false ->
  is_user_blacklisted (default_to_sender event uid) w = (Ok false, w1) ->
  expiry_fits (clock (advance w1)) (capped_duration cfg duration) = true ->
  block_user cfg event uid duration why w
  = (Ok (blocked (default_to_sender event uid)
           (capped_duration cfg duration) why),
     block_user_done event (default_to_sender event uid)
       (capped_duration cfg duration) why w1).
Proof.
  intros Hperm Hshield Hbl Hfits.
  unfold block_user, try_except, bind.
  rewrite first_test_is_add_permitted, Hperm. simpl.
  unfold admin_shielded in Hshield. rewrite Hshield, Hbl. simpl.
  rewrite actual_duration_is_capped.
  unfold block_user_done, expiry, at_write, expiry_fits in *.
  destruct (0 <? capped_duration cfg duration) eqn:Hpos.
  - apply andb_prop in Hfits. destruct Hfits as [Htd Hdt].
    change (clock (advance w1)) with (clock w1 + hd 0 (ticks w1)) in Hdt.
    unfold timedelta_seconds, datetime_add. simpl. rewrite Htd. simpl.
    rewrite Hdt. simpl.
    destruct (add_user_answers (default_to_sender event uid) (clock w1)
                (Some (clock w1 + hd 0 (ticks w1) + capped_duration cfg duration))
                why (advance (advance w1))) as (b & w2 & ->).
    reflexivity.
  - simpl.
    destruct (add_user_answers (default_to_sender event uid) (clock w1)
                None why (advance w1)) as (b & w2 & ->).
    reflexivity.
Qed.

(** A negative answer of [is_user_blacklisted] leaves the health of the
    storage as it was. *)
Lemma is_user_blacklisted_health uid w b w1 :
  is_user_blacklisted uid w = (Ok b, w1) -> storage_ok w1 = storage_ok w.
Proof.
  run_store.
  destruct (storage_ok w) eqn:Hok.
  - destruct (find_row uid (rows w)) as [e|].
    + destruct (expired (clock w) e); intros H; inversion H; subst; simpl; auto.
    + intros H; inversion H; subst; simpl; auto.
  - intros H; inversion H; subst; simpl; auto.
Qed.

(** On a healthy store the row of the target is the one [block_user]
    passed in. *)
Lemma block_user_done_row event target_id d why w1 :
  storage_ok w1 = true ->
  find_row target_id (rows (block_user_done event target_id d why w1))
  = Some (mkEntry target_id (clock w1) (expiry (clock (advance w1)) d) why).
Proof.
  intros Hok. rewrite block_user_done_rows.
  destruct (add_user_stores target_id (clock w1)
              (expiry (clock (advance w1)) d) why (at_write d w1))
    as (w2 & Hadd & Hrow).
  - now rewrite (proj2 (at_write_frame d w1)).
  - now rewrite Hadd.
Qed.

(** ** Adding through the admin command *)






(** ** Storage failure under [block_user] *)

(** With the storage failing, a permitted [block_user] still answers
    with the payload of a completed add, and the table is as before. *)
Lemma block_user_on_failing_storage cfg event uid duration why w :
  storage_ok w = false ->
  add_permitted event (default_to_sender event uid) = true ->
  admin_shielded cfg event (default_to_sender event uid) = false ->
  expiry_fits (clock (advance w)) (capped_duration cfg duration) = true ->
  exists w',
    block_user cfg event uid duration why w
    = (Ok (blocked (default_to_sender event uid)
             (capped_duration cfg duration) why), w') /\
    rows w' = rows w.
Proof.
  intros Hko Hperm Hshield Hfits.
  assert (Hbl : is_user_blacklisted (default_to_sender event uid) w
                = (Ok false,
                   with_log (log w ++ [LogError "storage failure in is_user_blacklisted"]) w)).
  { run_store. now rewrite Hko. }
  rewrite (block_user_proceeds _ _ _ _ why _ _ Hperm Hshield Hbl Hfits).
  eexists. split; [reflexivity|].
  rewrite block_user_done_rows.
  destruct (add_user_fault (default_to_sender event uid)
              (clock (with_log (log w ++ [LogError "storage failure in is_user_blacklisted"]) w))
              (expiry (clock (advance (with_log (log w ++ [LogError "storage failure in is_user_blacklisted"]) w)))
                 (capped_duration cfg duration))
              why
              (at_write (capped_duration cfg duration)
                 (with_log (log w ++ [LogError "storage failure in is_user_blacklisted"]) w)))
    as (w2 & Hadd & Hrows).
  - now rewrite (proj2 (at_write_frame _ _)).
  - rewrite Hadd. simpl. rewrite Hrows.
    now rewrite (proj1 (at_write_frame _ _)).
Qed.

(** C4 (what the code does).  The administrator 90009 asks for user
    10001 to be blocked while the storage is failing: [add_user] answers
    [False], no row is written, and [block_user] still returns
    [success] true with the message that the user is blocked. *)
Theorem block_user_ignores_add_user_failure :
  storage_ok Sample.failing_store = false /\
  fst (add_user "10001" 100 None "spam" (advance Sample.failing_store))
    = Ok false /\
  exists w',
    block_user default_config Sample.from_admin (Some "10001") 0 "spam"
      Sample.failing_store
    = (Ok [("success", JBool true);
           ("message", JStr "用户 10001 已拉黑。");
           ("user_id", JStr "10001");
           ("duration", JStr "永久");
           ("reason", JStr "spam")], w') /\
    rows w' = [].
Proof.
  split; [reflexivity|]. split; [reflexivity|].
  vm_compute. eexists. split; reflexivity.
Qed.

(** The admin command [add] does look at the answer of [add_user]. *)
Example add_reports_add_user_failure :
  fst (add Sample.from_admin "10001" 0 "spam" Sample.failing_store)
  = Ok [plain_result "添加用户到黑名单时出错。"].
Proof. reflexivity. Qed.

(** ** Negative durations *)





(** ** Self-targeting and duplicates *)

Lemma block_user_permitted cfg event uid duration why w :
  add_permitted event (default_to_sender event uid) = true ->
  admin_shielded cfg event (default_to_sender event uid) = false ->
  exists d w',
    block_user cfg event uid duration why w = (Ok d, w') /\
    past_permission_tests cfg event uid duration why d.
Proof.
  intros Hperm Hshield.
  destruct (is_user_blacklisted_answers (default_to_sender event uid) w)
    as (b & w1 & Hbl).
  destruct b.
  - exists (already_blacklisted (default_to_sender event uid)), w1.
    split; [|now left].
    unfold block_user, try_except, bind.
    rewrite first_test_is_add_permitted, Hperm. simpl.
    unfold admin_shielded in Hshield. now rewrite Hshield, Hbl.
  - destruct (expiry_fits (clock (advance w1)) (capped_duration cfg duration))
      eqn:Hfits.
    + rewrite (block_user_proceeds _ _ _ _ why _ _ Hperm Hshield Hbl Hfits).
      eexists. eexists. split; [reflexivity|]. right. now left.
    + unfold block_user, try_except, bind.
      rewrite first_test_is_add_permitted, Hperm. simpl.
      unfold admin_shielded in Hshield. rewrite Hshield, Hbl. simpl.
      rewrite actual_duration_is_capped.
      unfold expiry_fits in Hfits.
      destruct (0 <? capped_duration cfg duration); [|discriminate].
      simpl in Hfits.
      change (clock (advance w1)) with (clock w1 + hd 0 (ticks w1)) in Hfits.
      unfold timedelta_seconds, datetime_add. simpl.
      destruct (Py.timedelta_fits (capped_duration cfg duration)); simpl.
      * simpl in Hfits. rewrite Hfits. simpl.
        eexists. eexists. split; [reflexivity|]. right. right. eauto.
      * eexists. eexists. split; [reflexivity|]. right. right. eauto.
Qed.

(** None of those answers is a refusal on grounds of permission. *)
Lemma past_permission_tests_not_refused cfg event uid duration why d :
  past_permission_tests cfg event uid duration why d ->
  d <> permission_denied (sender_id event) (default_to_sender event uid)
  /\ d <> admin_protected.
Proof.
  intros [-> | [-> | [msg ->]]]; split; discriminate.
Qed.

(** C6.  [block_user] on the caller's own identifier.  A caller who is
    not an administrator is not refused: the answer is "already there",
    "blocked", or a date overflow, never one of the two refusals.  A
    caller who is an administrator is refused with [success] false and
    nothing changes while [allow_blacklist_admin] is off; with the option
    on, the call goes through like the first. *)
Theorem block_user_self_target cfg event uid duration why w :
  default_to_sender event uid = sender_id event ->
  (is_admin event = false \/ allow_blacklist_admin cfg = true ->
   exists d w',
     block_user cfg event uid duration why w = (Ok d, w') /\
     past_permission_tests cfg event uid duration why d /\
     d <> permission_denied (sender_id event) (default_to_sender event uid) /\
     d <> admin_protected)
  /\
  (is_admin event = true -> allow_blacklist_admin cfg = false ->
   block_user cfg event uid duration why w = (Ok admin_protected, w) /\
   dict_get "success" admin_protected = Some (JBool false)).
Proof.
  intros Hself. split.
  - intros Hfree.
    destruct (block_user_permitted cfg event uid duration why w)
      as (d & w' & Hrun & Hpast).
    + unfold add_permitted. now rewrite Hself, String.eqb_refl.
    + unfold admin_shielded.
      destruct Hfree as [-> | ->];
        now rewrite ?andb_false_r.
    + exists d, w'. split; [assumption|]. split; [assumption|].
      now apply (past_permission_tests_not_refused cfg event uid duration why).
  - intros Hadmin Hoff. split; [|reflexivity].
    unfold block_user, try_except.
    now rewrite Hadmin, Hoff, Hself, String.eqb_refl.
Qed.

Lemma block_user_self_target_witness :
  (default_to_sender Sample.from_user None = sender_id Sample.from_user /\
   is_admin Sample.from_user = false /\
   is_admin Sample.from_banned_admin = true /\
   allow_blacklist_admin default_config = false) /\
  (exists d w',
      block_user default_config Sample.from_user None 600 "" Sample.empty_store
      = (Ok d, w') /\
      past_permission_tests default_config Sample.from_user None 600 "" d /\
      d <> permission_denied "10001" "10001" /\
      d <> admin_protected) /\
  block_user default_config Sample.from_banned_admin None 600 ""
    Sample.empty_store
  = (Ok [("success", JBool false); ("message", JStr "不能拉黑管理员。")],
     Sample.empty_store).
Proof.
  split; [repeat split|split].
  - exact (proj1 (block_user_self_target default_config Sample.from_user
                    None 600 "" Sample.empty_store eq_refl)
             (or_introl eq_refl)).
  - exact (proj1 (proj2 (block_user_self_target default_config
                           Sample.from_banned_admin None 600 ""
                           Sample.empty_store eq_refl)
                    eq_refl eq_refl)).
Defined.

(** A self-block by an ordinary user, run: ten minutes, reported as 600. *)
Example block_user_self_defense :
  fst (block_user default_config Sample.from_user None 600 "" Sample.empty_store)
  = Ok [("success", JBool true);
        ("message", JStr "用户 10001 已拉黑。");
        ("user_id", JStr "10001");
        ("duration", JInt 600);
        ("reason", JStr "")].
Proof. reflexivity. Qed.

(** C7 (as amended).  [block_user] on a target the store reports as
    blacklisted never changes the table, whoever calls; and when the
    caller passes the permission tests the answer is the payload
    "already in the blacklist", with [success] true. *)
Theorem block_user_duplicate_is_noop cfg event uid duration why w w1 :
  is_user_blacklisted (default_to_sender event uid) w = (Ok true, w1) ->
  exists d w',
    block_user cfg event uid duration why w = (Ok d, w') /\
    rows w' = rows w /\
    find_row (default_to_sender event uid) (rows w')
    = find_row (default_to_sender event uid) (rows w) /\
    (add_permitted event (default_to_sender event uid) = true ->
     admin_shielded cfg event (default_to_sender event uid) = false ->
     d = already_blacklisted (default_to_sender event uid) /\
     dict_get "success" d = Some (JBool true)).
Proof.
  intros Hbl.
  destruct (is_user_blacklisted_true _ _ _ Hbl) as (Hw1 & _ & _).
  unfold block_user, try_except, bind.
  rewrite first_test_is_add_permitted. fold (admin_shielded cfg event (default_to_sender event uid)).
  destruct (add_permitted event (default_to_sender event uid)); simpl.
  - destruct (admin_shielded cfg event (default_to_sender event uid)); simpl.
    + eexists. eexists. split; [reflexivity|]. split; [reflexivity|].
      split; [reflexivity|]. discriminate.
    + rewrite Hbl. subst w1.
      eexists. eexists. split; [reflexivity|]. split; [reflexivity|].
      split; [reflexivity|]. intros _ _. split; reflexivity.
  - eexists. eexists. split; [reflexivity|]. split; [reflexivity|].
    split; [reflexivity|]. discriminate.
Qed.

Lemma block_user_duplicate_is_noop_witness :
  is_user_blacklisted "10001" Sample.one_banned
    = (Ok true, advance Sample.one_banned) /\
  exists d w',
    block_user default_config Sample.from_admin (Some "10001") 3600 "again"
      Sample.one_banned = (Ok d, w') /\
    rows w' = rows Sample.one_banned /\
    find_row "10001" (rows w') = Some (mkEntry "10001" 50 None "spam") /\
    (add_permitted Sample.from_admin "10001" = true ->
     admin_shielded default_config Sample.from_admin "10001" = false ->
     d = already_blacklisted "10001" /\
     dict_get "success" d = Some (JBool true)).
Proof.
  split; [reflexivity|].
  exact (block_user_duplicate_is_noop default_config Sample.from_admin
           (Some "10001") 3600 "again" Sample.one_banned
           (advance Sample.one_banned) eq_refl).
Defined.

(** C7 as first stated fails for a caller without permission: user
    20002 asks for the blacklisted user 10001 to be blocked and gets
    [success] false. *)
Lemma block_user_duplicate_by_stranger_is_refused :
  is_user_blacklisted "10001" Sample.one_banned
    = (Ok true, advance Sample.one_banned) /\
  block_user default_config Sample.from_other (Some "10001") 3600 "again"
    Sample.one_banned
  = (Ok [("success", JBool false);
         ("message",
          JStr "权限不足。您(20002)没有权限拉黑其他用户(10001)。")],
     Sample.one_banned).
Proof. split; reflexivity. Qed.

(** ** What the four agent tools return *)

Lemma block_user_answers cfg event uid duration why w :
  exists d w',
    block_user cfg event uid duration why w = (Ok d, w') /\
    exists b, dict_get "success" d = Some (JBool b).
Proof.
  destruct (add_permitted event (default_to_sender event uid)) eqn:Hperm.
  - destruct (admin_shielded cfg event (default_to_sender event uid)) eqn:Hshield.
    + exists admin_protected, w. split; [|now exists false].
      unfold block_user, try_except.
      rewrite first_test_is_add_permitted, Hperm. simpl.
      unfold admin_shielded in Hshield. now rewrite Hshield.
    + destruct (block_user_permitted cfg event uid duration why w Hperm Hshield)
        as (d & w' & Hrun & Hpast).
      exists d, w'. split; [assumption|].
      destruct Hpast as [-> | [-> | [msg ->]]];
        [now exists true | now exists true | now exists false].
  - exists (permission_denied (sender_id event) (default_to_sender event uid)), w.
    split; [|now exists false].
    unfold block_user, try_except.
    now rewrite first_test_is_add_permitted, Hperm.
Qed.

Lemma unblock_user_answers event uid w :
  exists d w',
    unblock_user event uid w = (Ok d, w') /\
    exists b, dict_get "success" d = Some (JBool b).
Proof.
  unfold unblock_user, try_except, bind.
  destruct (negb (is_admin event)
            && negb (String.eqb (sender_id event) (self_id event))).
  - eexists. eexists. split; [reflexivity|]. now exists false.
  - destruct (get_user_info_answers uid w) as ([e|] & w1 & ->).
    + destruct (remove_user_answers uid w1) as ([|] & w2 & ->).
      * eexists. eexists. split; [reflexivity|]. now exists true.
      * eexists. eexists. split; [reflexivity|]. now exists false.
    + eexists. eexists. split; [reflexivity|]. now exists true.
Qed.

Lemma list_blacklist_answers event page page_size w :
  exists d w',
    list_blacklist event page page_size w = (Ok d, w') /\
    has_key "success" d = false /\
    (has_key "total_count" d = true \/ has_key "error" d = true).
Proof.
  unfold list_blacklist, try_except, bind.
  destruct (get_blacklist_count_answers w) as (n & w1 & ->).
  destruct (n =? 0).
  - eexists. eexists. split; [reflexivity|]. split; [reflexivity|]. now left.
  - unfold floordiv. destruct (page_size =? 0).
    + eexists. eexists. split; [reflexivity|]. split; [reflexivity|]. now right.
    + simpl.
      destruct (get_blacklist_users_answers
                  (clamp_page page ((n + page_size - 1) / page_size))
                  page_size w1) as (us & w2 & ->).
      eexists. eexists. split; [reflexivity|]. split; [reflexivity|]. now left.
Qed.

Lemma get_blacklist_status_answers event uid w :
  exists d w',
    get_blacklist_status event uid w = (Ok d, w') /\
    has_key "success" d = false /\
    (has_key "is_blacklisted" d = true \/ has_key "error" d = true).
Proof.
  unfold get_blacklist_status, try_except, bind.
  destruct (get_user_info_answers (default_to_sender event uid) w)
    as ([e|] & w1 & ->);
    eexists; eexists; (split; [reflexivity|]); (split; [reflexivity|]); now left.
Qed.

(** C5 (as amended).  None of the four agent tools lets an exception
    out: each returns a dictionary on every input.  The dictionaries of
    [block_user] and [unblock_user] always carry a boolean [success];
    those of [list_blacklist] and [get_blacklist_status] never do: they
    carry [total_count], respectively [is_blacklisted], or else [error]. *)
Theorem agent_tools_always_answer cfg event :
  (forall uid duration why w,
      exists d w',
        block_user cfg event uid duration why w = (Ok d, w') /\
        exists b, dict_get "success" d = Some (JBool b))
  /\
  (forall uid w,
      exists d w',
        unblock_user event uid w = (Ok d, w') /\
        exists b, dict_get "success" d = Some (JBool b))
  /\
  (forall page page_size w,
      exists d w',
        list_blacklist event page page_size w = (Ok d, w') /\
        has_key "success" d = false /\
        (has_key "total_count" d = true \/ has_key "error" d = true))
  /\
  (forall uid w,
      exists d w',
        get_blacklist_status event uid w = (Ok d, w') /\
        has_key "success" d = false /\
        (has_key "is_blacklisted" d = true \/ has_key "error" d = true)).
Proof.
  split; [|split; [|split]].
  - intros. apply block_user_answers.
  - intros. apply unblock_user_answers.
  - intros. apply list_blacklist_answers.
  - intros. apply get_blacklist_status_answers.
Qed.

(** C5 as first stated fails on the two reading tools: their payloads
    have no [success] key, whether the blacklist is empty, populated, or
    the call fails (a zero [page_size]). *)
Lemma reading_tools_have_no_success_flag :
  fst (list_blacklist Sample.from_admin 1 10 Sample.empty_store)
    = Ok [("total_count", JInt 0); ("users", JList [])] /\
  fst (list_blacklist Sample.from_admin 1 0 Sample.one_banned)
    = Ok [("error", JStr "查询失败：integer division or modulo by zero")] /\
  fst (get_blacklist_status Sample.from_admin (Some "10001") Sample.one_banned)
    = Ok [("is_blacklisted", JBool true);
          ("user_id", JStr "10001");
          ("ban_time", JIso 50);
          ("expire_time", JStr "永久");
          ("reason", JStr "spam")] /\
  fst (get_blacklist_status Sample.from_admin None Sample.empty_store)
    = Ok [("is_blacklisted", JBool false); ("user_id", JStr "90009")] /\
  has_key "success" [("total_count", JInt 0); ("users", JList [])] = false /\
  has_key "success" [("is_blacklisted", JBool false); ("user_id", JStr "90009")]
    = false.
Proof. repeat split. Qed.

(** ** Listing by pages *)

Lemma last_page_bounds n page_size :
  0 < page_size -> 0 < n ->
  1 <= last_page n page_size /\ (last_page n page_size - 1) * page_size < n.
Proof.
  intros Hps Hn. unfold last_page. split.
  - apply Z.div_le_lower_bound; lia.
  - pose proof (Z.mul_div_le (n + page_size - 1) page_size Hps). nia.
Qed.

Lemma clamp_page_range page total_pages :
  1 <= total_pages ->
  1 <= clamp_page page total_pages <= total_pages.
Proof.
  intros Hlast. unfold clamp_page.
  destruct (page <? 1) eqn:Hlow; [lia|].
  destruct (total_pages <? page) eqn:Hhigh; [lia|].
  apply Z.ltb_ge in Hlow, Hhigh. lia.
Qed.

Lemma clamp_page_in_range page total_pages :
  1 <= page <= total_pages -> clamp_page page total_pages = page.
Proof.
  intros [Hlow Hhigh]. unfold clamp_page.
  replace (page <? 1) with false by (symmetry; apply Z.ltb_ge; lia).
  now replace (total_pages <? page) with false by (symmetry; apply Z.ltb_ge; lia).
Qed.

(** A count other than zero comes from a healthy store and is the
    number of active rows at the time of counting. *)
Lemma get_blacklist_count_nonzero w n w1 :
  get_blacklist_count w = (Ok n, w1) -> n <> 0 ->
  storage_ok w = true /\ w1 = advance w /\
  n = Z.of_nat (List.length (active_rows (clock w) (rows w))).
Proof.
  run_store. destruct (storage_ok w).
  - intros H _. inversion H; subst. auto.
  - intros H Hn. inversion H; subst. contradiction.
Qed.

Lemma length_page_slice {A} page page_size (l : list A) :
  0 < page_size -> 1 <= page ->
  (page - 1) * page_size < Z.of_nat (List.length l) ->
  Z.of_nat (List.length (page_slice page page_size l))
  = Z.min page_size (Z.of_nat (List.length l) - (page - 1) * page_size).
Proof.
  intros Hps Hpage Hin. unfold page_slice.
  rewrite length_firstn, length_skipn. nia.
Qed.

(** The page the store hands out when as many rows are active as were
    counted. *)
Lemma get_blacklist_users_length page page_size w n :
  storage_ok w = true ->
  0 < page_size ->
  Z.of_nat (List.length (active_rows (clock w) (rows w))) = n ->
  1 <= page <= last_page n page_size ->
  0 < n ->
  Z.of_nat (List.length (match fst (get_blacklist_users page page_size w) with
                         | Ok users => users
                         | Raise _ => []
                         end))
  = Z.min page_size (n - (page - 1) * page_size).
Proof.
  intros Hok Hps Hlen Hpage Hn. run_store. rewrite Hok. simpl.
  replace (page_size <=? 0) with false by (symmetry; apply Z.leb_gt; lia).
  simpl.
  assert (Hsort : List.length (BanTimeSort.sort (active_rows (clock w) (rows w)))
                  = List.length (active_rows (clock w) (rows w))).
  { symmetry. apply Permutation_length, BanTimeSort.Permuted_sort. }
  rewrite Hsort, Hlen. fold (last_page n page_size).
  replace (page <? 1) with false by (symmetry; apply Z.ltb_ge; lia).
  replace (last_page n page_size <? page) with false
    by (symmetry; apply Z.ltb_ge; lia).
  rewrite length_page_slice; rewrite ?Hsort, ?Hlen; try lia.
  pose proof (last_page_bounds n page_size Hps Hn). nia.
Qed.

(** Formatting the lines of the table never fails. *)
Lemma _format_datetime_answers iso show_remaining check_expire w :
  exists text w1,
    _format_datetime iso show_remaining check_expire w = (Ok text, w1).
Proof.
  unfold _format_datetime, bind, ret, datetime_now.
  destruct iso as [t|]; [|eauto].
  destruct check_expire; simpl.
  - destruct (t <? clock w); [eauto|].
    destruct show_remaining; simpl; [|eauto].
    destruct (t <? clock w + hd 0 (ticks w)); eauto.
  - destruct show_remaining; simpl; [|eauto].
    destruct (t <? clock w); eauto.
Qed.

Lemma format_lines_answers users w :
  exists lines w1, format_lines users w = (Ok lines, w1).
Proof.
  revert w. induction users as [|user rest IH]; intros w; simpl.
  - unfold ret. eauto.
  - unfold bind, format_line at 1. unfold bind.
    destruct (_format_datetime_answers (Some (ban_time user)) false false w)
      as (t1 & w1 & ->).
    destruct (_format_datetime_answers (expire_time user) false true w1)
      as (t2 & w2 & ->).
    unfold ret at 1.
    destruct (IH w2) as (lines & w3 & ->).
    unfold ret. eauto.
Qed.

Lemma clamp_page_idempotent page total_pages :
  1 <= total_pages ->
  clamp_page (clamp_page page total_pages) total_pages
  = clamp_page page total_pages.
Proof.
  intros Hlast. apply clamp_page_in_range. now apply clamp_page_range.
Qed.

(** * Further properties of the handlers *)

(** ** The message hook, in full *)

(** [is_user_blacklisted] does not touch the event. *)
Lemma is_user_blacklisted_event uid w b w1 :
  is_user_blacklisted uid w = (Ok b, w1) ->
  stopped w1 = stopped w /\ outbox w1 = outbox w.
Proof.
  run_store.
  destruct (storage_ok w).
  - destruct (find_row uid (rows w)) as [e|].
    + destruct (expired (clock w) e); intros H; inversion H; subst; simpl; auto.
    + intros H; inversion H; subst; simpl; auto.
  - intros H; inversion H; subst; simpl; auto.
Qed.

(** X1.  [on_all_message] never fails; it stops the event exactly when
    the message is addressed to the bot, the sender is not an
    administrator shielded by [allow_blacklist_admin = False], and the
    store answers that the sender is blacklisted; it sends the notice
    only then, at most once; and for a message that is not addressed, or
    from a shielded administrator, it does nothing at all (the store is
    not consulted). *)
Theorem on_all_message_stops_exactly_when cfg event w :
  exists w',
    on_all_message cfg event w = (Ok tt, w') /\
    stopped w' = (stopped w || suppresses cfg event w) /\
    outbox w'
    = (outbox w ++ (if suppresses cfg event w then notice cfg event else []))%list /\
    (is_at_or_wake_command event = false \/
     (is_admin event && negb (allow_blacklist_admin cfg)) = true ->
     w' = w).
Proof.
  unfold on_all_message, suppresses, try_except, bind, notice.
  destruct (is_at_or_wake_command event); simpl.
  - destruct (is_admin event && negb (allow_blacklist_admin cfg)); simpl.
    + exists w. rewrite orb_false_r, app_nil_r. auto.
    + destruct (is_user_blacklisted_answers (sender_id event) w)
        as (b & w1 & Hbl).
      rewrite Hbl. simpl.
      destruct (is_user_blacklisted_event _ _ _ _ Hbl) as [Hstop Hout].
      destruct b; simpl.
      * destruct (messages event) as [|m ms]; simpl.
        -- eexists. split; [reflexivity|]. simpl.
           rewrite orb_true_r, app_nil_r.
           repeat split; auto. intros [H|H]; discriminate.
        -- destruct (show_blacklist_status cfg); simpl;
             eexists; (split; [reflexivity|]); simpl;
             rewrite orb_true_r, ?app_nil_r, Hout;
             repeat split; auto; intros [H|H]; discriminate.
      * exists w1. rewrite orb_false_r, app_nil_r.
        repeat split; auto. intros [H|H]; discriminate.
  - exists w. rewrite orb_false_r, app_nil_r. auto.
Qed.

Lemma on_all_message_stops_exactly_when_witness :
  is_at_or_wake_command Sample.passing_by = false /\
  is_user_blacklisted "10001" Sample.one_banned
    = (Ok true, advance Sample.one_banned) /\
  on_all_message default_config Sample.passing_by Sample.one_banned
    = (Ok tt, Sample.one_banned).
Proof.
  split; [reflexivity|]. split; [reflexivity|].
  destruct (on_all_message_stops_exactly_when default_config
              Sample.passing_by Sample.one_banned)
    as (w' & Hrun & _ & _ & Hsame).
  rewrite Hrun. now rewrite (Hsame (or_introl eq_refl)).
Defined.

(** ** Removing through the agent tool *)

(** X2.  [unblock_user] called by someone who is neither an
    administrator nor the bot itself is refused with [success] false,
    whoever is named, and the world is exactly as before: the store is
    not consulted. *)
Theorem unblock_user_denies_non_admin event uid w :
  is_admin event = false ->
  sender_id event <> self_id event ->
  unblock_user event uid w = (Ok unblock_denied, w)
  /\ dict_get "success" unblock_denied = Some (JBool false).
Proof.
  intros Hadmin Hbot. apply String.eqb_neq in Hbot.
  split; [|reflexivity].
  unfold unblock_user, try_except. now rewrite Hadmin, Hbot.
Qed.

Lemma unblock_user_denies_non_admin_witness :
  (is_admin Sample.from_other = false /\
   sender_id Sample.from_other <> self_id Sample.from_other) /\
  unblock_user Sample.from_other "10001" Sample.one_banned
  = (Ok [("success", JBool false);
         ("message", JStr "权限不足。只有管理员可以解除拉黑。")],
     Sample.one_banned).
Proof.
  assert (H : sender_id Sample.from_other <> self_id Sample.from_other)
    by (simpl; discriminate).
  split; [split; [reflexivity|exact H]|].
  exact (proj1 (unblock_user_denies_non_admin Sample.from_other "10001"
                  Sample.one_banned eq_refl H)).
Defined.





(** ** Adding on the bot's own decision *)

(** X4.  [block_user] run under the bot's own identity (sender and self
    identifiers equal) on another user passes both permission tests,
    administrator or not: the answer is "already there", "blocked", or a
    date overflow, never a refusal. *)
Theorem block_user_by_bot_is_permitted cfg event uid duration why w :
  sender_id event = self_id event ->
  default_to_sender event uid <> sender_id event ->
  exists d w',
    block_user cfg event uid duration why w = (Ok d, w') /\
    past_permission_tests cfg event uid duration why d /\
    d <> permission_denied (sender_id event) (default_to_sender event uid) /\
    d <> admin_protected.
Proof.
  intros Hbot Hother. apply String.eqb_neq in Hother.
  destruct (block_user_permitted cfg event uid duration why w)
    as (d & w' & Hrun & Hpast).
  - unfold add_permitted. rewrite Hbot, String.eqb_refl.
    now rewrite orb_true_r.
  - unfold admin_shielded. now rewrite Hother.
  - exists d, w'. split; [assumption|]. split; [assumption|].
    now apply (past_permission_tests_not_refused cfg event uid duration why).
Qed.

Lemma block_user_by_bot_is_permitted_witness :
  (sender_id Sample.from_bot = self_id Sample.from_bot /\
   is_admin Sample.from_bot = false /\
   default_to_sender Sample.from_bot (Some "10001")
     <> sender_id Sample.from_bot) /\
  exists d w',
    block_user default_config Sample.from_bot (Some "10001") 600 "rude"
      Sample.empty_store = (Ok d, w') /\
    past_permission_tests default_config Sample.from_bot (Some "10001")
      600 "rude" d /\
    d <> permission_denied "bot" "10001" /\
    d <> admin_protected.
Proof.
  assert (H : default_to_sender Sample.from_bot (Some "10001")
              <> sender_id Sample.from_bot) by (simpl; discriminate).
  split; [split; [reflexivity|split; [reflexivity|exact H]]|].
  exact (block_user_by_bot_is_permitted default_config Sample.from_bot
           (Some "10001") 600 "rude" Sample.empty_store eq_refl H).
Defined.

(** ** How long an entry written by [block_user] lasts *)

Lemma capped_duration_le_max cfg duration :
  capped_duration cfg duration <= max_blacklist_duration cfg.
Proof.
  unfold capped_duration.
  destruct ((duration =? 0) && negb (allow_permanent_blacklist cfg)); [lia|].
  destruct (max_blacklist_duration cfg <? duration) eqn:Hmax; [lia|].
  apply Z.ltb_ge in Hmax. lia.
Qed.

(** X5.  The row [block_user] writes on a healthy store is banned at
    the clock reading taken after the duplicate test; when it has an
    expiry, the expiry lies after the next clock reading and at most
    [max_blacklist_duration] seconds after it; and it is permanent
    exactly when the capped duration is not positive. *)
Theorem block_user_expiry_is_bounded cfg event uid duration why w w1 :
  add_permitted event (default_to_sender event uid) = true ->
  admin_shielded cfg event (default_to_sender event uid) = false ->
  is_user_blacklisted (default_to_sender event uid) w = (Ok false, w1) ->
  expiry_fits (clock (advance w1)) (capped_duration cfg duration) = true ->
  storage_ok w = true ->
  exists w' row,
    block_user cfg event uid duration why w
    = (Ok (blocked (default_to_sender event uid)
             (capped_duration cfg duration) why), w') /\
    find_row (default_to_sender event uid) (rows w') = Some row /\
    ban_time row = clock w1 /\
    (forall t, expire_time row = Some t ->
               clock (advance w1) < t
               <= clock (advance w1) + max_blacklist_duration cfg) /\
    (expire_time row = None <-> capped_duration cfg duration <= 0).
Proof.
  intros Hperm Hshield Hbl Hfits Hok.
  rewrite (block_user_proceeds _ _ _ _ why _ _ Hperm Hshield Hbl Hfits).
  eexists. eexists. split; [reflexivity|]. split.
  - apply block_user_done_row.
    now rewrite (is_user_blacklisted_health _ _ _ _ Hbl).
  - pose proof (capped_duration_le_max cfg duration) as Hle.
    unfold expiry. simpl.
    destruct (0 <? capped_duration cfg duration) eqn:Hpos.
    + apply Z.ltb_lt in Hpos. split; [reflexivity|]. split.
      * intros t Ht. inversion Ht; subst. lia.
      * split; [discriminate|lia].
    + apply Z.ltb_ge in Hpos. split; [reflexivity|]. split.
      * discriminate.
      * split; auto.
Qed.

Lemma block_user_expiry_is_bounded_witness :
  (add_permitted Sample.from_admin "10001" = true /\
   admin_shielded default_config Sample.from_admin "10001" = false /\
   is_user_blacklisted "10001" Sample.empty_store
     = (Ok false, advance Sample.empty_store) /\
   storage_ok Sample.empty_store = true) /\
  exists w' row,
    block_user default_config Sample.from_admin (Some "10001") 99999 "spam"
      Sample.empty_store
    = (Ok (blocked "10001" 86400 "spam"), w') /\
    find_row "10001" (rows w') = Some row /\
    ban_time row = 101 /\
    (forall t, expire_time row = Some t -> 102 < t <= 102 + 86400) /\
    (expire_time row = None <-> 86400 <= 0).
Proof.
  split; [repeat split|].
  exact (block_user_expiry_is_bounded default_config Sample.from_admin
           (Some "10001") 99999 "spam" Sample.empty_store
           (advance Sample.empty_store) eq_refl eq_refl eq_refl eq_refl eq_refl).
Defined.

(** ** Dates out of range *)

(** X6.  When the date arithmetic for the capped duration does not fit
    ([timedelta] or [datetime] overflows), [block_user] returns the
    failure payload, [success] false, and the table is as the duplicate
    test left it: nothing is written. *)
Theorem block_user_overflow_writes_nothing cfg event uid duration why w w1 :
  add_permitted event (default_to_sender event uid) = true ->
  admin_shielded cfg event (default_to_sender event uid) = false ->
  is_user_blacklisted (default_to_sender event uid) w = (Ok false, w1) ->
  expiry_fits (clock (advance w1)) (capped_duration cfg duration) = false ->
  exists msg w',
    block_user cfg event uid duration why w
    = (Ok (operation_failed (Py.OverflowError msg)), w') /\
    dict_get "success" (operation_failed (Py.OverflowError msg))
    = Some (JBool false) /\
    rows w' = rows w1.
Proof.
  intros Hperm Hshield Hbl Hfits.
  unfold block_user, try_except, bind.
  rewrite first_test_is_add_permitted, Hperm. simpl.
  unfold admin_shielded in Hshield. rewrite Hshield, Hbl. simpl.
  rewrite actual_duration_is_capped.
  unfold expiry_fits in Hfits.
  destruct (0 <? capped_duration cfg duration); [|discriminate].
  simpl in Hfits.
  change (clock (advance w1)) with (clock w1 + hd 0 (ticks w1)) in Hfits.
  unfold timedelta_seconds, datetime_add. simpl.
  destruct (Py.timedelta_fits (capped_duration cfg duration)); simpl.
  - simpl in Hfits. rewrite Hfits. simpl.
    eexists. eexists. split; [reflexivity|]. split; reflexivity.
  - eexists. eexists. split; [reflexivity|]. split; reflexivity.
Qed.

Lemma block_user_overflow_writes_nothing_witness :
  (add_permitted Sample.from_admin "10001" = true /\
   admin_shielded Sample.huge_max Sample.from_admin "10001" = false /\
   is_user_blacklisted "10001" Sample.empty_store
     = (Ok false, advance Sample.empty_store) /\
   expiry_fits 102 (capped_duration Sample.huge_max (10 ^ 18)) = false) /\
  exists msg w',
    block_user Sample.huge_max Sample.from_admin (Some "10001") (10 ^ 18)
      "spam" Sample.empty_store
    = (Ok (operation_failed (Py.OverflowError msg)), w') /\
    dict_get "success" (operation_failed (Py.OverflowError msg))
    = Some (JBool false) /\
    rows w' = [].
Proof.
  split; [repeat split|].
  exact (block_user_overflow_writes_nothing Sample.huge_max Sample.from_admin
           (Some "10001") (10 ^ 18) "spam" Sample.empty_store
           (advance Sample.empty_store) eq_refl eq_refl eq_refl eq_refl).
Defined.

(** X7.  When the date arithmetic for the requested duration does not
    fit, the admin command [add] yields its error message and leaves the
    table alone. *)
Theorem add_overflow_writes_nothing event uid duration why w :
  expiry_fits (clock (advance w)) duration = false ->
  exists w',
    add event uid duration why w
    = (Ok [plain_result "添加用户到黑名单时出错。"], w') /\
    rows w' = rows w.
Proof.
  intros Hfits.
  unfold add, try_except, bind.
  unfold expiry_fits in Hfits.
  destruct (0 <? duration); [|discriminate].
  simpl in Hfits.
  change (clock (advance w)) with (clock w + hd 0 (ticks w)) in Hfits.
  unfold timedelta_seconds, datetime_add. simpl.
  destruct (Py.timedelta_fits duration); simpl.
  - simpl in Hfits. rewrite Hfits. simpl.
    eexists. split; reflexivity.
  - eexists. split; reflexivity.
Qed.

Lemma add_overflow_writes_nothing_witness :
  expiry_fits 101 (10 ^ 18) = false /\
  exists w',
    add Sample.from_admin "10001" (10 ^ 18) "spam" Sample.one_timed
    = (Ok [plain_result "添加用户到黑名单时出错。"], w') /\
    rows w' = [mkEntry "10001" 50 (Some 5000) "spam"].
Proof.
  split; [reflexivity|].
  exact (add_overflow_writes_nothing Sample.from_admin "10001" (10 ^ 18)
           "spam" Sample.one_timed eq_refl).
Defined.

(** X8.  [add] looks at the answer of [add_user]: when the store refuses
    the write, the command yields its error message instead of a
    confirmation. *)
Theorem add_reports_store_refusal event uid duration why w w2 :
  expiry_fits (clock (advance w)) duration = true ->
  add_user uid (clock w) (expiry (clock (advance w)) duration) why
    (at_write duration w) = (Ok false, w2) ->
  add event uid duration why w
  = (Ok [plain_result "添加用户到黑名单时出错。"], w2).
Proof.
  intros Hfits Hadd.
  unfold add, try_except, bind.
  unfold expiry, at_write, expiry_fits in *.
  destruct (0 <? duration) eqn:Hpos.
  - apply andb_prop in Hfits. destruct Hfits as [Htd Hdt].
    change (clock (advance w)) with (clock w + hd 0 (ticks w)) in Hdt, Hadd.
    unfold timedelta_seconds, datetime_add. simpl. rewrite Htd. simpl.
    rewrite Hdt. simpl. now rewrite Hadd.
  - simpl. now rewrite Hadd.
Qed.

Lemma add_reports_store_refusal_witness :
  (expiry_fits 101 3600 = true /\
   fst (add_user "10001" 100 (Some (101 + 3600)) "spam"
          (advance (advance Sample.failing_store))) = Ok false) /\
  fst (add Sample.from_admin "10001" 3600 "spam" Sample.failing_store)
  = Ok [plain_result "添加用户到黑名单时出错。"].
Proof.
  split; [split; reflexivity|].
  rewrite (add_reports_store_refusal Sample.from_admin "10001" 3600 "spam"
             Sample.failing_store
             (snd (add_user "10001" 100 (Some (101 + 3600)) "spam"
                     (advance (advance Sample.failing_store))))
             eq_refl eq_refl).
  reflexivity.
Defined.

(** ** Listings, in full *)

Lemma get_blacklist_count_rows w n w1 :
  get_blacklist_count w = (Ok n, w1) -> rows w1 = rows w.
Proof.
  run_store. destruct (storage_ok w); intros H; inversion H; subst; reflexivity.
Qed.

Lemma get_blacklist_users_rows page page_size w users w1 :
  get_blacklist_users page page_size w = (Ok users, w1) -> rows w1 = rows w.
Proof.
  run_store. destruct (storage_ok w).
  - destruct (page_size <=? 0); intros H; inversion H; subst; reflexivity.
  - intros H; inversion H; subst; reflexivity.
Qed.

Lemma _format_datetime_rows iso show_remaining check_expire w text w1 :
  _format_datetime iso show_remaining check_expire w = (Ok text, w1) ->
  rows w1 = rows w.
Proof.
  unfold _format_datetime, bind, ret, datetime_now.
  destruct iso as [t|]; [|intros H; inversion H; subst; reflexivity].
  destruct check_expire; simpl.
  - destruct (t <? clock w); [intros H; inversion H; subst; reflexivity|].
    destruct show_remaining; simpl;
      [|intros H; inversion H; subst; reflexivity].
    destruct (t <? clock w + hd 0 (ticks w));
      intros H; inversion H; subst; reflexivity.
  - destruct show_remaining; simpl;
      [|intros H; inversion H; subst; reflexivity].
    destruct (t <? clock w); intros H; inversion H; subst; reflexivity.
Qed.

(** [format_lines] keeps the users in order, with their identifiers and
    reasons, and only reads the clock. *)
Lemma format_lines_keeps users w lines w1 :
  format_lines users w = (Ok lines, w1) ->
  map line_user_id lines = map user_id users /\
  map line_reason lines
  = map (fun u => if Py.truthy (reason u) then reason u else "无") users /\
  rows w1 = rows w.
Proof.
  revert w lines w1. induction users as [|user rest IH]; intros w lines w1; simpl.
  - unfold ret. intros H; inversion H; subst. auto.
  - unfold bind, format_line at 1. unfold bind.
    destruct (_format_datetime_answers (Some (ban_time user)) false false w)
      as (t1 & wa & Ha).
    rewrite Ha.
    destruct (_format_datetime_answers (expire_time user) false true wa)
      as (t2 & wb & Hb).
    rewrite Hb. unfold ret at 1.
    destruct (format_lines rest wb) as [[lines'|e] wc] eqn:Hrest.
    + unfold ret. intros H; inversion H; subst. simpl.
      destruct (IH _ _ _ Hrest) as (Hids & Hreasons & Hrows).
      rewrite Hids, Hreasons, Hrows.
      rewrite (_format_datetime_rows _ _ _ _ _ _ Hb).
      now rewrite (_format_datetime_rows _ _ _ _ _ _ Ha).
    + discriminate.
Qed.

(** [ls] past its division: the page is fetched, formatted and
    rendered. *)
Lemma ls_runs text_to_image event page page_size w n w1 users w2 lines w3 :
  get_blacklist_count w = (Ok n, w1) ->
  n <> 0 -> page_size <> 0 ->
  get_blacklist_users (clamp_page page (last_page n page_size)) page_size w1
  = (Ok users, w2) ->
  format_lines users w2 = (Ok lines, w3) ->
  ls text_to_image event page page_size w
  = (Ok [rendered text_to_image
           (list_text lines (clamp_page page (last_page n page_size))
              (last_page n page_size) n page_size)], w3).
Proof.
  intros Hcount Hn Hps Husers Hlines.
  apply Z.eqb_neq in Hn, Hps.
  unfold ls, try_except, bind.
  rewrite Hcount, Hn. unfold floordiv. rewrite Hps. simpl.
  fold (last_page n page_size). rewrite Husers, Hlines.
  unfold rendered, list_text.
  match goal with
  | |- context [text_to_image ?t] => destruct (text_to_image t) as [data|]
  end; [destruct (Py.truthy data)|]; reflexivity.
Qed.

Lemma list_blacklist_runs event page page_size w n w1 users w2 :
  get_blacklist_count w = (Ok n, w1) ->
  n <> 0 -> page_size <> 0 ->
  get_blacklist_users (clamp_page page (last_page n page_size)) page_size w1
  = (Ok users, w2) ->
  list_blacklist event page page_size w
  = (Ok [("total_count", JInt n);
         ("total_pages", JInt (last_page n page_size));
         ("current_page", JInt (clamp_page page (last_page n page_size)));
         ("page_size", JInt page_size);
         ("users", JList (map user_json users))], w2).
Proof.
  intros Hcount Hn Hps Husers.
  apply Z.eqb_neq in Hn, Hps.
  unfold list_blacklist, try_except, bind.
  rewrite Hcount, Hn. unfold floordiv. rewrite Hps. simpl.
  fold (last_page n page_size). now rewrite Husers.
Qed.

(** C9.  Listing, by [list_blacklist] and by [ls], with a positive
    [page_size] over a blacklist the store counts as non-empty: the page
    shown is the requested one brought into [1 .. total_pages], so a
    page below 1 is page 1 and a page above the last is the last; no
    error is returned; the payload of [list_blacklist] and the text of
    [ls] both carry that page number and the users the store hands out
    for that page, line by line; the call with the requested page is the
    call with that page; and when as many entries are active at reading
    as were counted, the page holds
    [min page_size (count - (page - 1) * page_size)] of them in both. *)
Theorem listing_clamps_page text_to_image event page page_size w n w1 :
  0 < page_size ->
  get_blacklist_count w = (Ok n, w1) ->
  n <> 0 ->
  (1 <= clamp_page page (last_page n page_size) <= last_page n page_size) /\
  (page < 1 -> clamp_page page (last_page n page_size) = 1) /\
  (last_page n page_size < page ->
   clamp_page page (last_page n page_size) = last_page n page_size) /\
  (exists users w2 lines w3,
      get_blacklist_users (clamp_page page (last_page n page_size))
        page_size w1 = (Ok users, w2) /\
      format_lines users w2 = (Ok lines, w3) /\
      list_blacklist event page page_size w
      = (Ok [("total_count", JInt n);
             ("total_pages", JInt (last_page n page_size));
             ("current_page", JInt (clamp_page page (last_page n page_size)));
             ("page_size", JInt page_size);
             ("users", JList (map user_json users))], w2) /\
      ls text_to_image event page page_size w
      = (Ok [rendered text_to_image
               (list_text lines (clamp_page page (last_page n page_size))
                  (last_page n page_size) n page_size)], w3) /\
      map line_user_id lines = map user_id users /\
      (Z.of_nat (List.length (active_rows (clock w1) (rows w1))) = n ->
       Z.of_nat (List.length users)
       = Z.min page_size
           (n - (clamp_page page (last_page n page_size) - 1) * page_size) /\
       Z.of_nat (List.length lines)
       = Z.min page_size
           (n - (clamp_page page (last_page n page_size) - 1) * page_size))) /\
  list_blacklist event page page_size w
  = list_blacklist event (clamp_page page (last_page n page_size)) page_size w /\
  ls text_to_image event page page_size w
  = ls text_to_image event (clamp_page page (last_page n page_size)) page_size w.
Proof.
  intros Hps Hcount Hn.
  destruct (get_blacklist_count_nonzero w n w1 Hcount Hn) as (Hok & Hw1 & Hlen).
  assert (Hpos : 0 < n) by lia.
  assert (Hps0 : page_size <> 0) by lia.
  destruct (last_page_bounds n page_size Hps Hpos) as [Hlast Hfit].
  pose proof (clamp_page_range page _ Hlast) as Hrange.
  destruct (get_blacklist_users_answers
              (clamp_page page (last_page n page_size)) page_size w1)
    as (users & w2 & Husers).
  destruct (format_lines_answers users w2) as (lines & w3 & Hlines).
  destruct (format_lines_keeps _ _ _ _ Hlines) as (Hids & _ & _).
  pose proof (list_blacklist_runs event _ _ _ _ _ _ _ Hcount Hn Hps0 Husers)
    as Hlist.
  pose proof (ls_runs text_to_image event _ _ _ _ _ _ _ _ _
                Hcount Hn Hps0 Husers Hlines) as Hls.
  split; [assumption|]. split; [|split; [|split; [|split]]].
  - intros Hlow. unfold clamp_page.
    now replace (page <? 1) with true by (symmetry; apply Z.ltb_lt; lia).
  - intros Hhigh. unfold clamp_page.
    replace (page <? 1) with false by (symmetry; apply Z.ltb_ge; lia).
    now replace (last_page n page_size <? page) with true
      by (symmetry; apply Z.ltb_lt; lia).
  - exists users, w2, lines, w3.
    split; [assumption|]. split; [assumption|]. split; [assumption|].
    split; [assumption|]. split; [assumption|].
    intros Hsame.
    assert (Hok1 : storage_ok w1 = true) by now subst w1.
    pose proof (get_blacklist_users_length
                  (clamp_page page (last_page n page_size)) page_size w1 n
                  Hok1 Hps Hsame Hrange Hpos) as Hsize.
    rewrite Husers in Hsize. simpl in Hsize.
    split; [exact Hsize|].
    rewrite <- Hsize.
    rewrite <- (length_map line_user_id lines), Hids.
    now rewrite length_map.
  - pose proof (list_blacklist_runs event
                  (clamp_page page (last_page n page_size)) page_size
                  w n w1 users w2 Hcount Hn Hps0) as Hagain.
    rewrite (clamp_page_idempotent page _ Hlast) in Hagain.
    now rewrite Hlist, (Hagain Husers).
  - pose proof (ls_runs text_to_image event
                  (clamp_page page (last_page n page_size)) page_size
                  w n w1 users w2 lines w3 Hcount Hn Hps0) as Hagain.
    rewrite (clamp_page_idempotent page _ Hlast) in Hagain.
    now rewrite Hls, (Hagain Husers Hlines).
Qed.

(** Twenty-five entries by pages of ten, in the payload and in the text:
    pages 1 and 2 hold ten, page 3 holds five, page 0 is page 1 and page
    4 is page 3. *)
Lemma listing_clamps_page_witness :
  (0 < 10 /\
   get_blacklist_count Sample.twenty_five
     = (Ok 25, advance Sample.twenty_five) /\
   25 <> 0) /\
  last_page 25 10 = 3 /\
  list_blacklist Sample.from_admin 0 10 Sample.twenty_five
    = list_blacklist Sample.from_admin 1 10 Sample.twenty_five /\
  list_blacklist Sample.from_admin 4 10 Sample.twenty_five
    = list_blacklist Sample.from_admin 3 10 Sample.twenty_five /\
  ls Sample.no_image Sample.from_admin 0 10 Sample.twenty_five
    = ls Sample.no_image Sample.from_admin 1 10 Sample.twenty_five /\
  ls Sample.no_image Sample.from_admin 4 10 Sample.twenty_five
    = ls Sample.no_image Sample.from_admin 3 10 Sample.twenty_five /\
  (page_and_size (list_blacklist Sample.from_admin 0 10 Sample.twenty_five)
     = Some (JInt 1, 10%nat) /\
   page_and_size (list_blacklist Sample.from_admin 1 10 Sample.twenty_five)
     = Some (JInt 1, 10%nat) /\
   page_and_size (list_blacklist Sample.from_admin 2 10 Sample.twenty_five)
     = Some (JInt 2, 10%nat) /\
   page_and_size (list_blacklist Sample.from_admin 3 10 Sample.twenty_five)
     = Some (JInt 3, 5%nat) /\
   page_and_size (list_blacklist Sample.from_admin 4 10 Sample.twenty_five)
     = Some (JInt 3, 5%nat)) /\
  (text_page_and_users
     (ls Sample.no_image Sample.from_admin 0 10 Sample.twenty_five)
   = Some (1, ["1"; "2"; "3"; "4"; "5"; "6"; "7"; "8"; "9"; "10"]) /\
   text_page_and_users
     (ls Sample.no_image Sample.from_admin 1 10 Sample.twenty_five)
   = Some (1, ["1"; "2"; "3"; "4"; "5"; "6"; "7"; "8"; "9"; "10"]) /\
   text_page_and_users
     (ls Sample.no_image Sample.from_admin 2 10 Sample.twenty_five)
   = Some (2, ["11"; "12"; "13"; "14"; "15"; "16"; "17"; "18"; "19"; "20"]) /\
   text_page_and_users
     (ls Sample.no_image Sample.from_admin 3 10 Sample.twenty_five)
   = Some (3, ["21"; "22"; "23"; "24"; "25"]) /\
   text_page_and_users
     (ls Sample.no_image Sample.from_admin 4 10 Sample.twenty_five)
   = Some (3, ["21"; "22"; "23"; "24"; "25"])).
Proof.
  assert (Hn : 25 <> 0) by discriminate.
  pose proof (listing_clamps_page Sample.no_image Sample.from_admin 0 10
                Sample.twenty_five 25 (advance Sample.twenty_five)
                eq_refl eq_refl Hn) as (_ & _ & _ & _ & Hlow & Hlow').
  pose proof (listing_clamps_page Sample.no_image Sample.from_admin 4 10
                Sample.twenty_five 25 (advance Sample.twenty_five)
                eq_refl eq_refl Hn) as (_ & _ & _ & _ & Hhigh & Hhigh').
  split; [split; [reflexivity|split; [reflexivity|exact Hn]]|].
  split; [reflexivity|].
  split; [exact Hlow|]. split; [exact Hhigh|].
  split; [exact Hlow'|]. split; [exact Hhigh'|].
  split; repeat split; vm_compute; reflexivity.
Defined.

(** X9.  A [page_size] of zero is an error only over a blacklist the
    store counts as non-empty: the division by zero is caught,
    [list_blacklist] returns a payload holding only [error] and [ls]
    yields its error message, the table untouched.  Over an empty
    blacklist both answer "empty" before dividing, whatever the page and
    the page size. *)
Theorem listing_zero_page_size text_to_image event page w n w1 :
  get_blacklist_count w = (Ok n, w1) ->
  (n <> 0 ->
   exists msg w',
     list_blacklist event page 0 w
     = (Ok [("error", JStr ("查询失败：" ++ msg))], w') /\
     ls text_to_image event page 0 w
     = (Ok [plain_result "列出黑名单时出错。"], w') /\
     rows w' = rows w)
  /\
  (n = 0 ->
   forall page_size,
     list_blacklist event page page_size w
     = (Ok [("total_count", JInt 0); ("users", JList [])], w1) /\
     ls text_to_image event page page_size w
     = (Ok [plain_result "黑名单为空。"], w1)).
Proof.
  intros Hcount. split.
  - intros Hn. apply Z.eqb_neq in Hn.
    unfold list_blacklist, ls, try_except, bind.
    rewrite Hcount, Hn. unfold floordiv. simpl.
    eexists. eexists. split; [reflexivity|]. split; [reflexivity|].
    simpl. apply (get_blacklist_count_rows _ _ _ Hcount).
  - intros -> page_size.
    unfold list_blacklist, ls, try_except, bind.
    rewrite Hcount. simpl. split; reflexivity.
Qed.

Lemma listing_zero_page_size_witness :
  get_blacklist_count Sample.one_banned = (Ok 1, advance Sample.one_banned) /\
  1 <> 0 /\
  exists msg w',
    list_blacklist Sample.from_admin 1 0 Sample.one_banned
    = (Ok [("error", JStr ("查询失败：" ++ msg))], w') /\
    ls Sample.no_image Sample.from_admin 1 0 Sample.one_banned
    = (Ok [plain_result "列出黑名单时出错。"], w') /\
    rows w' = rows Sample.one_banned.
Proof.
  assert (Hn : 1 <> 0) by discriminate.
  split; [reflexivity|]. split; [exact Hn|].
  exact (proj1 (listing_zero_page_size Sample.no_image Sample.from_admin 1
                  Sample.one_banned 1 (advance Sample.one_banned) eq_refl)
           Hn).
Defined.

Lemma last_page_covers n page_size :
  0 < page_size -> n <= last_page n page_size * page_size.
Proof.
  intros Hps. unfold last_page.
  pose proof (Z.mod_pos_bound (n + page_size - 1) page_size Hps).
  pose proof (Z.div_mod (n + page_size - 1) page_size). nia.
Qed.

(** X10.  With a positive [page_size] over a non-empty blacklist, the
    figures [ls] prints are consistent: [total_pages] pages are just
    enough for the entries counted (one page fewer would not hold
    them), the page shown lies within them, the hint to the previous
    page is missing exactly on page 1, the hint to the next page exactly
    on the last page, and a hint never names a page outside
    [1 .. total_pages]. *)
Theorem ls_footer_is_consistent text_to_image event page page_size w n w1 :
  0 < page_size ->
  get_blacklist_count w = (Ok n, w1) ->
  n <> 0 ->
  exists lines w',
    ls text_to_image event page page_size w
    = (Ok [rendered text_to_image
             (list_text lines (clamp_page page (last_page n page_size))
                (last_page n page_size) n page_size)], w') /\
    (last_page n page_size - 1) * page_size < n
      <= last_page n page_size * page_size /\
    1 <= clamp_page page (last_page n page_size) <= last_page n page_size /\
    (hint_previous (list_text lines (clamp_page page (last_page n page_size))
                      (last_page n page_size) n page_size) = None
     <-> clamp_page page (last_page n page_size) = 1) /\
    (hint_next (list_text lines (clamp_page page (last_page n page_size))
                  (last_page n page_size) n page_size) = None
     <-> clamp_page page (last_page n page_size) = last_page n page_size) /\
    (forall q,
        hint_previous (list_text lines (clamp_page page (last_page n page_size))
                         (last_page n page_size) n page_size) = Some q
        \/ hint_next (list_text lines (clamp_page page (last_page n page_size))
                        (last_page n page_size) n page_size) = Some q ->
        1 <= q <= last_page n page_size).
Proof.
  intros Hps Hcount Hn.
  destruct (get_blacklist_count_nonzero w n w1 Hcount Hn) as (_ & _ & Hlen).
  assert (Hpos : 0 < n) by lia.
  destruct (last_page_bounds n page_size Hps Hpos) as [Hlast Hfit].
  pose proof (last_page_covers n page_size Hps) as Hcover.
  pose proof (clamp_page_range page _ Hlast) as Hrange.
  destruct (get_blacklist_users_answers
              (clamp_page page (last_page n page_size)) page_size w1)
    as (users & w2 & Husers).
  destruct (format_lines_answers users w2) as (lines & w3 & Hlines).
  assert (Hps0 : page_size <> 0) by lia.
  exists lines, w3.
  split; [apply (ls_runs _ _ _ _ _ _ _ _ _ _ _ Hcount Hn Hps0 Husers Hlines)|].
  split; [lia|]. split; [assumption|].
  simpl.
  destruct (1 <? clamp_page page (last_page n page_size)) eqn:Hprev;
    destruct (clamp_page page (last_page n page_size) <? last_page n page_size)
      eqn:Hnext;
    try apply Z.ltb_lt in Hprev; try apply Z.ltb_ge in Hprev;
    try apply Z.ltb_lt in Hnext; try apply Z.ltb_ge in Hnext;
    (split; [split; [discriminate || reflexivity || lia | intros; discriminate || reflexivity || lia]|]);
    (split; [split; [discriminate || reflexivity || lia | intros; discriminate || reflexivity || lia]|]);
    intros q [Hq|Hq]; inversion Hq; subst; lia.
Qed.

Lemma ls_footer_is_consistent_witness :
  (0 < 10 /\
   get_blacklist_count Sample.twenty_five
     = (Ok 25, advance Sample.twenty_five) /\
   25 <> 0) /\
  exists lines w',
    ls Sample.no_image Sample.from_admin 2 10 Sample.twenty_five
    = (Ok [plain_list (list_text lines 2 3 25 10)], w') /\
    hint_previous (list_text lines 2 3 25 10) = Some 1 /\
    hint_next (list_text lines 2 3 25 10) = Some 3.
Proof.
  assert (Hn : 25 <> 0) by discriminate.
  split; [split; [reflexivity|split; [reflexivity|exact Hn]]|].
  destruct (ls_footer_is_consistent Sample.no_image Sample.from_admin 2 10
              Sample.twenty_five 25 (advance Sample.twenty_five)
              eq_refl eq_refl Hn) as (lines & w' & Hrun & _).
  exists lines, w'. split; [exact Hrun|]. split; reflexivity.
Defined.

(** X11.  [list_blacklist] and [ls] agree on every input and in every
    world: either both fail, or both find the blacklist empty, or the
    payload and the text show the same page number, page count, entry
    count and page size, and the same users in the same order, a missing
    reason shown as "无" by both; and they leave the same table. *)
Theorem listings_agree text_to_image event page page_size w :
  exists d r w1 w2,
    list_blacklist event page page_size w = (Ok d, w1) /\
    ls text_to_image event page page_size w = (Ok r, w2) /\
    same_listing text_to_image d r /\
    rows w1 = rows w2.
Proof.
  destruct (get_blacklist_count_answers w) as (n & wa & Hcount).
  destruct (Z.eq_dec n 0) as [-> | Hn].
  - exists [("total_count", JInt 0); ("users", JList [])],
      [plain_result "黑名单为空。"], wa, wa.
    unfold list_blacklist, ls, try_except, bind. rewrite Hcount. simpl.
    repeat split. right. left. auto.
  - destruct (Z.eq_dec page_size 0) as [-> | Hps].
    + pose proof Hn as Hn'. apply Z.eqb_neq in Hn'.
      unfold list_blacklist, ls, try_except, bind.
      rewrite Hcount, Hn'. unfold floordiv. simpl.
      eexists. eexists. eexists. eexists.
      split; [reflexivity|]. split; [reflexivity|].
      split; [|reflexivity]. left. eexists. split; reflexivity.
    + destruct (get_blacklist_users_answers
                  (clamp_page page (last_page n page_size)) page_size wa)
        as (users & wb & Husers).
      destruct (format_lines_answers users wb) as (lines & wc & Hlines).
      rewrite (list_blacklist_runs _ _ _ _ _ _ _ _ Hcount Hn Hps Husers).
      rewrite (ls_runs _ _ _ _ _ _ _ _ _ _ _ Hcount Hn Hps Husers Hlines).
      destruct (format_lines_keeps _ _ _ _ Hlines) as (Hids & Hreasons & Hrows).
      eexists. eexists. eexists. eexists.
      split; [reflexivity|]. split; [reflexivity|].
      split; [|now rewrite Hrows].
      right. right.
      exists n, (last_page n page_size),
        (clamp_page page (last_page n page_size)), page_size, users, lines.
      auto.
Qed.

Lemma ls_yields_once text_to_image event page page_size w :
  exists r w', ls text_to_image event page page_size w = (Ok [r], w').
Proof.
  destruct (get_blacklist_count_answers w) as (n & wa & Hcount).
  destruct (Z.eq_dec n 0) as [-> | Hn].
  - unfold ls, try_except, bind, ret. rewrite Hcount. simpl. eauto.
  - destruct (Z.eq_dec page_size 0) as [-> | Hps].
    + apply Z.eqb_neq in Hn.
      unfold ls, try_except, bind, ret. rewrite Hcount, Hn.
      unfold floordiv, raise, logger_error. simpl. eauto.
    + destruct (get_blacklist_users_answers
                  (clamp_page page (last_page n page_size)) page_size wa)
        as (users & wb & Husers).
      destruct (format_lines_answers users wb) as (lines & wc & Hlines).
      rewrite (ls_runs _ _ _ _ _ _ _ _ _ _ _ Hcount Hn Hps Husers Hlines).
      eauto.
Qed.

(** ** One result per command *)

(** X12.  Each of the five admin commands yields exactly one result on
    every input and in every world: an exception inside ([ls] dividing
    by a zero page size, [add] overflowing a date) is caught and
    answered with the command's error message. *)
Theorem admin_commands_yield_once event :
  (forall text_to_image page page_size w,
      exists r w', ls text_to_image event page page_size w = (Ok [r], w'))
  /\ (forall uid w, exists r w', rm event uid w = (Ok [r], w'))
  /\ (forall uid duration why w,
        exists r w', add event uid duration why w = (Ok [r], w'))
  /\ (forall w, exists r w', clear event w = (Ok [r], w'))
  /\ (forall text_to_image uid w,
        exists r w', info text_to_image event uid w = (Ok [r], w')).
Proof.
  split; [|split; [|split; [|split]]].
  - intros text_to_image page page_size w.
    destruct (ls_yields_once text_to_image event page page_size w)
      as (r & w' & Hrun).
    eauto.
  - intros uid w. unfold rm, try_except, bind, ret.
    destruct (get_user_info_answers uid w) as ([e|] & w1 & ->); [|eauto].
    destruct (remove_user_answers uid w1) as ([|] & w2 & ->); eauto.
  - intros uid duration why w. unfold add, try_except, bind, ret.
    unfold datetime_now at 1. simpl.
    destruct (0 <? duration).
    + unfold datetime_now, timedelta_seconds, datetime_add. simpl.
      destruct (Py.timedelta_fits duration); simpl; [|eauto].
      destruct (Py.datetime_fits (clock w + hd 0 (ticks w) + duration));
        simpl; [|eauto].
      match goal with
      | |- context [add_user ?u ?b ?x ?y ?z] =>
          destruct (add_user_answers u b x y z) as ([|] & w2 & ->)
      end; eauto.
    + simpl.
      match goal with
      | |- context [add_user ?u ?b ?x ?y ?z] =>
          destruct (add_user_answers u b x y z) as ([|] & w2 & ->)
      end; eauto.
  - intros w. unfold clear, try_except, bind, ret.
    destruct (get_blacklist_count_answers w) as (n & w1 & ->).
    destruct (n =? 0); [eauto|].
    unfold clear_blacklist, storage_fault, logger_error, bind, ret.
    destruct (storage_ok w1); eauto.
  - intros text_to_image uid w. unfold info, try_except, bind, ret.
    destruct (get_user_info_answers uid w) as ([e|] & w1 & ->); [|eauto].
    destruct (_format_datetime_answers (Some (ban_time e)) false false w1)
      as (t1 & w2 & ->).
    destruct (_format_datetime_answers (expire_time e) true true w2)
      as (t2 & w3 & ->).
    match goal with
    | |- context [text_to_image ?t] => destruct (text_to_image t) as [data|]
    end; [destruct (Py.truthy data)|]; eauto.
Qed.

(** ** The remaining time shown by [info] *)

(** X13.  [_format_datetime] with [show_remaining] set, on an entry
    with an expiry [t]: the answer is "expired" or the expiry with the
    time left, split so that hours are within a day and minutes within
    an hour, the three parts adding up to the time left at the last
    clock reading, short by less than a minute; the day count is
    negative exactly when the expiry has passed by that last reading. *)
Theorem format_datetime_remaining t check_expire w :
  exists text w',
    _format_datetime (Some t) true check_expire w = (Ok text, w') /\
    (text = AlreadyExpired
     \/ exists days hours minutes,
         text = FormattedRemaining t days hours minutes /\
         0 <= hours < 24 /\
         0 <= minutes < 60 /\
         0 <= (t - last_reading check_expire w)
              - (days * 86400 + hours * 3600 + minutes * 60) < 60 /\
         (days < 0 <-> t < last_reading check_expire w)).
Proof.
  assert (Hsplit : forall remaining,
             0 <= remaining mod 86400 / 3600 < 24 /\
             0 <= remaining mod 86400 mod 3600 / 60 < 60 /\
             0 <= remaining
                  - (remaining / 86400 * 86400
                     + remaining mod 86400 / 3600 * 3600
                     + remaining mod 86400 mod 3600 / 60 * 60) < 60 /\
             (remaining / 86400 < 0 <-> remaining < 0)).
  { intros remaining. Z.div_mod_to_equations. lia. }
  unfold _format_datetime, last_reading, bind, ret, datetime_now, advance.
  destruct check_expire; simpl.
  - destruct (t <? clock w); simpl; [eauto|].
    destruct (t <? clock w + hd 0 (ticks w)); simpl; [eauto|].
    eexists. eexists. split; [reflexivity|]. right.
    eexists. eexists. eexists. split; [reflexivity|].
    destruct (Hsplit (t - (clock w + hd 0 (ticks w) + hd 0 (tl (ticks w)))))
      as (Hh & Hm & Hsum & Hneg).
    repeat split; try lia.
  - destruct (t <? clock w); simpl; [eauto|].
    eexists. eexists. split; [reflexivity|]. right.
    eexists. eexists. eexists. split; [reflexivity|].
    destruct (Hsplit (t - (clock w + hd 0 (ticks w))))
      as (Hh & Hm & Hsum & Hneg).
    repeat split; try lia.
Qed.

(** One day, two hours and three minutes and a half ahead. *)
Example remaining_time_run :
  fst (_format_datetime (Some (102 + 86400 + 7200 + 210)) true true
         Sample.empty_store)
  = Ok (FormattedRemaining (102 + 86400 + 7200 + 210) 1 2 3).
Proof. reflexivity. Qed.

(** ** The admin command [rm] beside the agent tool *)



(** ** Clearing *)



(** ** From the tools to the hook *)

Lemma is_user_blacklisted_absent uid w :
  find_row uid (rows w) = None ->
  exists w1, is_user_blacklisted uid w = (Ok false, w1).
Proof.
  intros Hrow. run_store. rewrite Hrow. destruct (storage_ok w); eauto.
Qed.

Lemma get_user_info_rows uid w e w1 :
  get_user_info uid w = (Ok (Some e), w1) -> rows w1 = rows w.
Proof.
  run_store. destruct (storage_ok w); [|discriminate].
  destruct (find_row uid (rows w)) as [e'|]; [|discriminate].
  destruct (expired (clock w) e'); [discriminate|].
  intros H; inversion H; subst; reflexivity.
Qed.

Lemma remove_user_true uid w w1 :
  remove_user uid w = (Ok true, w1) -> rows w1 = delete_row uid (rows w).
Proof.
  run_store. destruct (storage_ok w); [|discriminate].
  destruct (find_row uid (rows w)); [|discriminate].
  intros H; inversion H; subst; reflexivity.
Qed.

Lemma append_cancel_l (s a b : string) : (s ++ a = s ++ b)%string -> a = b.
Proof.
  induction s as [|c s IH]; simpl; [auto|].
  intros H. inversion H. auto.
Qed.

(** X16.  Adding and then checking: after [block_user] has written the
    row on a healthy store, an addressed message from the target is
    stopped by [on_all_message] in any later world that still holds that
    table on healthy storage, as long as the entry has not run out
    (the capped duration is not positive, or the clock has not passed
    the expiry) and the target is not a shielded administrator. *)
Theorem blocked_user_is_suppressed
        cfg event uid duration why w w1 message later :
  add_permitted event (default_to_sender event uid) = true ->
  admin_shielded cfg event (default_to_sender event uid) = false ->
  is_user_blacklisted (default_to_sender event uid) w = (Ok false, w1) ->
  expiry_fits (clock (advance w1)) (capped_duration cfg duration) = true ->
  storage_ok w = true ->
  rows later = rows (snd (block_user cfg event uid duration why w)) ->
  storage_ok later = true ->
  capped_duration cfg duration <= 0
  \/ clock later <= clock (advance w1) + capped_duration cfg duration ->
  is_at_or_wake_command message = true ->
  sender_id message = default_to_sender event uid ->
  (is_admin message && negb (allow_blacklist_admin cfg)) = false ->
  exists w',
    on_all_message cfg message later = (Ok tt, w') /\
    stopped w' = true /\
    outbox w' = (outbox later ++ notice cfg message)%list.
Proof.
  intros Hperm Hshield Hbl Hfits Hok Hrows Hok' Hlive Haddr Hsender Hfree.
  rewrite (block_user_proceeds _ _ _ _ why _ _ Hperm Hshield Hbl Hfits) in Hrows.
  cbv beta iota delta [snd] in Hrows.
  assert (Hrow : find_row (default_to_sender event uid) (rows later)
                 = Some (mkEntry (default_to_sender event uid) (clock w1)
                           (expiry (clock (advance w1))
                              (capped_duration cfg duration)) why)).
  { rewrite Hrows. apply block_user_done_row.
    now rewrite (is_user_blacklisted_health _ _ _ _ Hbl). }
  assert (Hactive : is_user_blacklisted (sender_id message) later
                    = (Ok true, advance later)).
  { rewrite Hsender. apply (is_user_blacklisted_active _ _ _ Hok' Hrow).
    unfold expired, expiry. simpl.
    destruct (0 <? capped_duration cfg duration) eqn:Hpos; [|reflexivity].
    apply Z.ltb_lt in Hpos. apply Z.ltb_ge.
    destruct Hlive as [Hlive|Hlive]; [lia|exact Hlive]. }
  unfold on_all_message, try_except, bind, notice.
  rewrite Haddr, Hfree. simpl. rewrite Hactive.
  destruct (messages message) as [|m ms]; simpl.
  - eexists; repeat split; simpl; now rewrite ?app_nil_r.
  - destruct (show_blacklist_status cfg); simpl;
      eexists; repeat split; simpl; now rewrite ?app_nil_r.
Qed.

Lemma blocked_user_is_suppressed_witness :
  (add_permitted Sample.from_admin "10001" = true /\
   admin_shielded default_config Sample.from_admin "10001" = false /\
   is_user_blacklisted "10001" Sample.empty_store
     = (Ok false, advance Sample.empty_store) /\
   storage_ok Sample.empty_store = true /\
   sender_id Sample.from_user = "10001") /\
  exists w',
    on_all_message default_config Sample.from_user
      (snd (block_user default_config Sample.from_admin (Some "10001") 3600
              "spam" Sample.empty_store))
    = (Ok tt, w') /\
    stopped w' = true /\
    outbox w' = ["[连接已中断]"].
Proof.
  split; [repeat split|].
  apply (blocked_user_is_suppressed default_config Sample.from_admin
           (Some "10001") 3600 "spam" Sample.empty_store
           (advance Sample.empty_store) Sample.from_user
           (snd (block_user default_config Sample.from_admin (Some "10001")
                   3600 "spam" Sample.empty_store)));
    try reflexivity.
  right. vm_compute. discriminate.
Defined.

(** X17.  Removing and then checking: once [unblock_user] has answered
    that the user is unblocked, [on_all_message] lets that user's
    messages through in any later world that still holds that table: the
    event is not stopped and nothing is sent. *)
Theorem unblocked_user_is_let_through cfg event uid w w' message later :
  unblock_user event uid w = (Ok (unblocked uid), w') ->
  rows later = rows w' ->
  sender_id message = uid ->
  exists w'',
    on_all_message cfg message later = (Ok tt, w'') /\
    stopped w'' = stopped later /\
    outbox w'' = outbox later.
Proof.
  intros Hrun Hrows Hsender.
  assert (Hgone : find_row uid (rows later) = None).
  { rewrite Hrows. revert Hrun.
    unfold unblock_user, try_except, bind, ret.
    destruct (negb (is_admin event)
              && negb (String.eqb (sender_id event) (self_id event)));
      [discriminate|].
    destruct (get_user_info_answers uid w) as ([e|] & w1 & ->).
    - destruct (remove_user uid w1) as [[[|]|ex] w2] eqn:Hremove; simpl.
      + intros H. inversion H. subst.
        simpl. rewrite (remove_user_true _ _ _ Hremove).
        apply find_row_delete_row.
      + discriminate.
      + discriminate.
    - unfold unblocked. intros H. inversion H as [[Hmsg Hw]].
      apply append_cancel_l in Hmsg. discriminate. }
  destruct (is_user_blacklisted_absent uid later Hgone) as (w1 & Hbl).
  destruct (is_user_blacklisted_event _ _ _ _ Hbl) as [Hstop Hout].
  unfold on_all_message, try_except, bind, ret. rewrite Hsender.
  destruct (is_at_or_wake_command message); simpl; [|eauto].
  destruct (is_admin message && negb (allow_blacklist_admin cfg)); simpl;
    [eauto|].
  rewrite Hbl. eauto.
Qed.

Lemma unblocked_user_is_let_through_witness :
  (unblock_user Sample.from_admin "10001" Sample.one_banned
   = (Ok (unblocked "10001"),
      snd (unblock_user Sample.from_admin "10001" Sample.one_banned)) /\
   sender_id Sample.from_user = "10001") /\
  exists w'',
    on_all_message default_config Sample.from_user
      (snd (unblock_user Sample.from_admin "10001" Sample.one_banned))
    = (Ok tt, w'') /\
    stopped w'' = false /\
    outbox w'' = [].
Proof.
  split; [split; reflexivity|].
  exact (unblocked_user_is_let_through default_config Sample.from_admin
           "10001" Sample.one_banned
           (snd (unblock_user Sample.from_admin "10001" Sample.one_banned))
           Sample.from_user
           (snd (unblock_user Sample.from_admin "10001" Sample.one_banned))
           eq_refl eq_refl eq_refl).
Defined.

Lemma get_user_info_active uid w e :
  storage_ok w = true ->
  find_row uid (rows w) = Some e ->
  expired (clock w) e = false ->
  get_user_info uid w = (Ok (Some e), advance w).
Proof.
  intros Hok Hrow Hexp. run_store. now rewrite Hok, Hrow, Hexp.
Qed.

(** X18.  Adding and then asking: after [block_user] has written the
    row on a healthy store, [get_blacklist_status] for the target, asked
    by anyone in a later world that still holds that table on healthy
    storage and before the entry has run out, answers [is_blacklisted]
    true with the ban time and the expiry that were written ("永久" for
    none) and the reason given ("无" for an empty one). *)
Theorem blocked_user_status
        cfg event uid duration why w w1 asker who later :
  add_permitted event (default_to_sender event uid) = true ->
  admin_shielded cfg event (default_to_sender event uid) = false ->
  is_user_blacklisted (default_to_sender event uid) w = (Ok false, w1) ->
  expiry_fits (clock (advance w1)) (capped_duration cfg duration) = true ->
  storage_ok w = true ->
  rows later = rows (snd (block_user cfg event uid duration why w)) ->
  storage_ok later = true ->
  capped_duration cfg duration <= 0
  \/ clock later <= clock (advance w1) + capped_duration cfg duration ->
  default_to_sender asker who = default_to_sender event uid ->
  get_blacklist_status asker who later
  = (Ok [("is_blacklisted", JBool true);
         ("user_id", JStr (default_to_sender event uid));
         ("ban_time", JIso (clock w1));
         ("expire_time",
          expire_json (expiry (clock (advance w1))
                         (capped_duration cfg duration)));
         ("reason", reason_json why)],
     advance later).
Proof.
  intros Hperm Hshield Hbl Hfits Hok Hrows Hok' Hlive Hwho.
  rewrite (block_user_proceeds _ _ _ _ why _ _ Hperm Hshield Hbl Hfits) in Hrows.
  cbv beta iota delta [snd] in Hrows.
  assert (Hrow : find_row (default_to_sender event uid) (rows later)
                 = Some (mkEntry (default_to_sender event uid) (clock w1)
                           (expiry (clock (advance w1))
                              (capped_duration cfg duration)) why)).
  { rewrite Hrows. apply block_user_done_row.
    now rewrite (is_user_blacklisted_health _ _ _ _ Hbl). }
  unfold get_blacklist_status, try_except, bind. rewrite Hwho.
  rewrite (get_user_info_active _ _ _ Hok' Hrow); [reflexivity|].
  unfold expired, expiry. simpl.
  destruct (0 <? capped_duration cfg duration) eqn:Hpos; [|reflexivity].
  apply Z.ltb_lt in Hpos. apply Z.ltb_ge.
  destruct Hlive as [Hlive|Hlive]; [lia|exact Hlive].
Qed.

Lemma blocked_user_status_witness :
  (add_permitted Sample.from_admin "10001" = true /\
   admin_shielded default_config Sample.from_admin "10001" = false /\
   is_user_blacklisted "10001" Sample.empty_store
     = (Ok false, advance Sample.empty_store) /\
   storage_ok Sample.empty_store = true /\
   default_to_sender Sample.from_user None = "10001") /\
  get_blacklist_status Sample.from_user None
    (snd (block_user default_config Sample.from_admin (Some "10001") 3600
            "" Sample.empty_store))
  = (Ok [("is_blacklisted", JBool true);
         ("user_id", JStr (default_to_sender Sample.from_admin (Some "10001")));
         ("ban_time", JIso (clock (advance Sample.empty_store)));
         ("expire_time",
          expire_json (expiry (clock (advance (advance Sample.empty_store)))
                         (capped_duration default_config 3600)));
         ("reason", reason_json "")],
     advance (snd (block_user default_config Sample.from_admin (Some "10001")
                     3600 "" Sample.empty_store))).
Proof.
  split; [repeat split|].
  apply (blocked_user_status default_config Sample.from_admin
           (Some "10001") 3600 "" Sample.empty_store
           (advance Sample.empty_store));
    try reflexivity.
  right. vm_compute. discriminate.
Defined.

(** The same, run: banned at 101, expiring an hour after 102, no reason. *)
Example status_after_block_run :
  fst (get_blacklist_status Sample.from_user None
         (snd (block_user default_config Sample.from_admin (Some "10001") 3600
                 "" Sample.empty_store)))
  = Ok [("is_blacklisted", JBool true);
        ("user_id", JStr "10001");
        ("ban_time", JIso 101);
        ("expire_time", JIso (102 + 3600));
        ("reason", JStr "无")].
Proof. vm_compute. reflexivity. Qed.
